(** * fertilityandlife.py: data cleaning and the year filter

    A shallow embedding of [load_data] and of the slider callback
    [update_plot] of [fertilityandlife.py], with the pandas operations they
    call modelled on labelled rows, followed by the properties of the
    prepared dataset and of the year selection. *)

From Stdlib Require Import List String Ascii Bool Arith ZArith QArith Lia.
From Stdlib Require Import DecimalString DecimalPos DecimalZ.
Import ListNotations.

Local Close Scope Q_scope.
Local Open Scope string_scope.
Local Open Scope list_scope.

(** ** Cells, rows and frames *)

(** A cell of a pandas frame as Python sees it: the missing marker [NaN],
    a number, or text.  [read_csv] yields text in a numeric column when a
    field does not parse as a number. *)
Inductive cell : Type :=
| NaN
| Num (x : Q)
| Str (s : string).

(** [pandas.isna] on one cell. *)
Definition isna (v : cell) : bool :=
  match v with
  | NaN => true
  | _ => false
  end.

(** Python [==] on cell values; [NaN] equals nothing, itself included. *)
Definition cell_eqb (a b : cell) : bool :=
  match a, b with
  | Num x, Num y => Qeq_bool x y
  | Str s, Str t => String.eqb s t
  | _, _ => false
  end.

(** The columns of the gapminder table. *)
Inductive column : Type :=
| Country | Region | Year | Fertility | lifeExp | pop | ID.

Definition columns : list column :=
  [Country; Region; Year; Fertility; lifeExp; pop; ID].

Record row : Type := mkRow {
  c_Country : cell;
  c_Region : cell;
  c_Year : cell;
  c_Fertility : cell;
  c_lifeExp : cell;
  c_pop : cell;
  c_ID : cell
}.

Definition get (c : column) (r : row) : cell :=
  match c with
  | Country => c_Country r
  | Region => c_Region r
  | Year => c_Year r
  | Fertility => c_Fertility r
  | lifeExp => c_lifeExp r
  | pop => c_pop r
  | ID => c_ID r
  end.

Definition set (c : column) (v : cell) (r : row) : row :=
  match c with
  | Country => mkRow v (c_Region r) (c_Year r) (c_Fertility r) (c_lifeExp r) (c_pop r) (c_ID r)
  | Region => mkRow (c_Country r) v (c_Year r) (c_Fertility r) (c_lifeExp r) (c_pop r) (c_ID r)
  | Year => mkRow (c_Country r) (c_Region r) v (c_Fertility r) (c_lifeExp r) (c_pop r) (c_ID r)
  | Fertility => mkRow (c_Country r) (c_Region r) (c_Year r) v (c_lifeExp r) (c_pop r) (c_ID r)
  | lifeExp => mkRow (c_Country r) (c_Region r) (c_Year r) (c_Fertility r) v (c_pop r) (c_ID r)
  | pop => mkRow (c_Country r) (c_Region r) (c_Year r) (c_Fertility r) (c_lifeExp r) v (c_ID r)
  | ID => mkRow (c_Country r) (c_Region r) (c_Year r) (c_Fertility r) (c_lifeExp r) (c_pop r) v
  end.

(** A frame is its rows in order, each with its index label; a series is
    one column of it, under the same labels. *)
Definition DataFrame : Type := list (nat * row).
Definition Series : Type := list (nat * cell).

Definition index {A : Type} (l : list (nat * A)) : list nat := map fst l.

(** [data[c]] *)
Definition col (c : column) (data : DataFrame) : Series :=
  map (fun ir => (fst ir, get c (snd ir))) data.

(** The frame [read_csv] builds from parsed rows: a RangeIndex 0..n-1. *)
Definition RangeIndex (rows : list row) : DataFrame :=
  combine (seq 0 (List.length rows)) rows.

(** ** The pandas operations of [load_data] *)

(** [data.dropna(subset=...)]: keep the rows with no missing cell in the
    columns of [subset]. *)
Definition complete (subset : list column) (r : row) : bool :=
  forallb (fun c => negb (isna (get c r))) subset.

Definition dropna (subset : list column) (data : DataFrame) : DataFrame :=
  filter (fun ir => complete subset (snd ir)) data.

(** [Series.ffill]: each missing value takes the last value seen before
    it. *)
Fixpoint ffill_from (last : cell) (s : Series) : Series :=
  match s with
  | [] => []
  | (i, v) :: s' =>
      let v' := if isna v then last else v in
      (i, v') :: ffill_from v' s'
  end.

Definition ffill (s : Series) : Series := ffill_from NaN s.

(** [Series.bfill]: each missing value takes the next value after it, once
    that one is filled. *)
Definition first_value (s : Series) : cell :=
  match s with
  | [] => NaN
  | (_, v) :: _ => v
  end.

Fixpoint bfill (s : Series) : Series :=
  match s with
  | [] => []
  | (i, v) :: s' =>
      let t := bfill s' in
      (i, if isna v then first_value t else v) :: t
  end.

(** [data.groupby(by)[c].ffill()]: forward fill inside each group of equal
    [by], rows staying where they are.  [seen] holds the key and value of
    the rows already passed, latest first.  A row whose key is missing is in
    no group and gets [NaN]. *)
Definition last_valid_in_group (k : cell) (seen : list (cell * cell)) : cell :=
  match find (fun kv => cell_eqb (fst kv) k && negb (isna (snd kv))) seen with
  | Some kv => snd kv
  | None => NaN
  end.

Fixpoint groupby_ffill_from (by_ c : column) (seen : list (cell * cell))
    (data : DataFrame) : Series :=
  match data with
  | [] => []
  | (i, r) :: rest =>
      let k := get by_ r in
      let v := get c r in
      let v' := if isna k then NaN
                else if isna v then last_valid_in_group k seen
                else v in
      (i, v') :: groupby_ffill_from by_ c ((k, v) :: seen) rest
  end.

Definition groupby_ffill (by_ c : column) (data : DataFrame) : Series :=
  groupby_ffill_from by_ c [] data.

(** [Series.fillna(value)] *)
Definition fillna (value : cell) (s : Series) : Series :=
  map (fun iv => (fst iv, if isna (snd iv) then value else snd iv)) s.

(** [data[c] = s].  pandas aligns [s] on the frame's index: a series under
    the very same index is taken position by position, any other is looked
    up label by label, [NaN] where the label is absent. *)
Definition loc (i : nat) (s : Series) : cell :=
  match find (fun iv => Nat.eqb (fst iv) i) s with
  | Some iv => snd iv
  | None => NaN
  end.

Fixpoint index_equals (a b : list nat) : bool :=
  match a, b with
  | [], [] => true
  | i :: a', j :: b' => Nat.eqb i j && index_equals a' b'
  | _, _ => false
  end.

Definition setitem (c : column) (s : Series) (data : DataFrame) : DataFrame :=
  if index_equals (index s) (index data)
  then map (fun p => (fst (fst p), set c (snd (snd p)) (snd (fst p)))) (combine data s)
  else map (fun ir => (fst ir, set c (loc (fst ir) s) (snd ir))) data.

(** ** [load_data] *)

(** Lines 18 to 23 of [load_data], on the frame that [read_csv] returned. *)
Definition clean (data : DataFrame) : DataFrame :=
  let data := dropna [lifeExp; Fertility] data in
  let data := setitem pop (bfill (groupby_ffill Country pop data)) data in
  let data := setitem ID (fillna (Str "Unknown") (col ID data)) data in
  data.

(** What [load_data] returns for a source whose rows parse to
    [rawRecords]. *)
Definition prepare (rawRecords : list row) : DataFrame :=
  clean (RangeIndex rawRecords).

(** The rows [dropna] keeps, before any filling. *)
Definition retained (rawRecords : list row) : DataFrame :=
  dropna [lifeExp; Fertility] (RangeIndex rawRecords).

(** ** Tables and their columns *)

Definition column_eqb (a b : column) : bool :=
  match a, b with
  | Country, Country | Region, Region | Year, Year | Fertility, Fertility
  | lifeExp, lifeExp | pop, pop | ID, ID => true
  | _, _ => false
  end.

(** What the parser makes of a text: the columns its header names, of the
    seven, and its rows.  The cell a row holds for a column the header does
    not name is never read. *)
Record Table : Type := mkTable {
  table_columns : list column;
  table_rows : list row
}.

(** A frame with the columns it has. *)
Record Frame : Type := mkFrame {
  frame_columns : list column;
  frame_rows : DataFrame
}.

Definition has_column (c : column) (present : list column) : bool :=
  existsb (column_eqb c) present.

(** The columns of [subset] that are not among [present], in the order of
    [subset]. *)
Definition missing_columns (subset present : list column) : list column :=
  filter (fun c => negb (has_column c present)) subset.

Section Loader.

(** The exceptions that end [load_data]: those [read_csv] raises, and the
    [KeyError] of pandas for columns the frame does not have.  The
    specification calls them DataLoadError. *)
Inductive DataLoadError : Type :=
| FileNotFoundError
| ParserError (msg : string)
| KeyError (keys : list column).

(** Exceptions pass through a sequence of statements. *)
Definition bind {A B : Type} (m : DataLoadError + A) (k : A -> DataLoadError + B)
  : DataLoadError + B :=
  match m with
  | inl e => inl e
  | inr a => k a
  end.

Local Notation "x <- m ;; k" := (bind m (fun x => k))
  (at level 61, m at next level, right associativity).

(** Reading the columns of [subset] off a frame: a [KeyError] with the ones
    it lacks. *)
Definition require (subset : list column) (df : Frame) : DataLoadError + unit :=
  match missing_columns subset (frame_columns df) with
  | [] => inr tt
  | missing => inl (KeyError missing)
  end.

(** The files on disk, by path. *)
Definition filesystem : Type := string -> option string.

(** The CSV parser of pandas, from the text of a file to its table. *)
Variable parse_csv : string -> DataLoadError + Table.

Definition read_csv (filepath : string) (fs : filesystem)
  : DataLoadError + Frame :=
  match fs filepath with
  | None => inl FileNotFoundError
  | Some text =>
      match parse_csv text with
      | inl e => inl e
      | inr t => inr (mkFrame (table_columns t) (RangeIndex (table_rows t)))
      end
  end.

(** [load_data] has no handler: an exception of [read_csv] leaves it at
    once, and so does the [KeyError] of [dropna(subset=...)], of
    [groupby('Country')], of [['pop']] and of [data['ID']] for a column the
    frame lacks.  With the columns there, lines 18 to 23 are [clean]. *)
Definition load_data (filepath : string) (fs : filesystem)
  : DataLoadError + Frame :=
  data <- read_csv filepath fs ;;
  _ <- require [lifeExp; Fertility] data ;;
  _ <- require [Country] data ;;
  _ <- require [pop] data ;;
  _ <- require [ID] data ;;
  inr (mkFrame (frame_columns data) (clean (frame_rows data))).

End Loader.

(** ** The slider callback *)

(** What [update_plot] reads and writes: the slider's value, the frame
    [data] it closes over, [source.data] and [plot.title.text]. *)
Record Session : Type := mkSession {
  slider_value : Z;
  data : DataFrame;
  source_data : list (column * list cell);
  title_text : string
}.

(** [data[c] == v], row by row. *)
Definition eq_scalar (s : Series) (v : cell) : list (nat * bool) :=
  map (fun iv => (fst iv, cell_eqb (snd iv) v)) s.

(** [data[mask]] for a mask computed from [data] itself, hence under the
    same index: the rows where the mask holds. *)
Definition getitem_mask (mask : list (nat * bool)) (df : DataFrame) : DataFrame :=
  map fst (filter (fun p => snd (snd p)) (combine df mask)).

(** [data.to_dict(orient='list')]: every column with the list of its
    values. *)
Definition to_dict_list (df : DataFrame) : list (column * list cell) :=
  map (fun c => (c, map snd (col c df))) columns.

(** The text of an integer in an f-string. *)
Definition format_int (z : Z) : string :=
  NilZero.string_of_int (Z.to_int z).

Definition update_plot (s : Session) : Session :=
  let yr := slider_value s in
  let new_data :=
    getitem_mask (eq_scalar (col Year (data s)) (Num (inject_Z yr))) (data s) in
  {| slider_value := yr;
     data := data s;
     source_data := to_dict_list new_data;
     title_text := "Life Expectancy vs Fertility in " ++ format_int yr |}.

(** [d[c]] on a column dictionary, and the records the dictionary holds,
    read back row by row. *)
Definition lookup_column (c : column) (d : list (column * list cell)) : list cell :=
  match find (fun cv =>
                match fst cv, c with
                | Country, Country | Region, Region | Year, Year
                | Fertility, Fertility | lifeExp, lifeExp | pop, pop | ID, ID => true
                | _, _ => false
                end) d with
  | Some cv => snd cv
  | None => []
  end.

Fixpoint zip_rows (a b c d e f g : list cell) : list row :=
  match a, b, c, d, e, f, g with
  | x1 :: a', x2 :: b', x3 :: c', x4 :: d', x5 :: e', x6 :: f', x7 :: g' =>
      mkRow x1 x2 x3 x4 x5 x6 x7 :: zip_rows a' b' c' d' e' f' g'
  | _, _, _, _, _, _, _ => []
  end.

Definition records (d : list (column * list cell)) : list row :=
  zip_rows (lookup_column Country d) (lookup_column Region d)
           (lookup_column Year d) (lookup_column Fertility d)
           (lookup_column lifeExp d) (lookup_column pop d)
           (lookup_column ID d).

(** Whether the [Year] of a labelled row equals [year], as [==] has it. *)
Definition year_is (year : Z) (ir : nat * row) : bool :=
  cell_eqb (get Year (snd ir)) (Num (inject_Z year)).

(** ** The fill of the specification *)

(** The rows of one group. *)
Definition group_rows (by_ : column) (k : cell) (df : DataFrame) : DataFrame :=
  filter (fun ir => cell_eqb (get by_ (snd ir)) k) df.

(** Section 4.1, step 2, in the specification's words: the group sorted by
    Year ascending, stably, then filled forward and backward. *)
Definition year_leb (a b : nat * row) : bool :=
  match get Year (snd a), get Year (snd b) with
  | Num x, Num y => Qle_bool x y
  | _, _ => true
  end.

Fixpoint insert_by_year (x : nat * row) (l : DataFrame) : DataFrame :=
  match l with
  | [] => [x]
  | y :: l' => if year_leb x y then x :: y :: l' else y :: insert_by_year x l'
  end.

Definition sort_by_year (df : DataFrame) : DataFrame :=
  fold_right insert_by_year [] df.

Definition spec_fill_group (group : DataFrame) : Series :=
  bfill (ffill (col pop (sort_by_year group))).

Definition spec_fill_pop (rawRecords : list row) (i : nat) (r : row) : cell :=
  loc i (spec_fill_group (group_rows Country (get Country r) (retained rawRecords))).

(** ** Sample tables *)

Definition observation (country : string) (year : Z) (fertility life population id : cell)
  : row :=
  mkRow (Str country) (Str "Region") (Num (inject_Z year))
        fertility life population id.

(** Scenario 1 of the specification: the first row lacks lifeExp. *)
Definition scenario1 : list row :=
  [observation "A" 1964 (Num 5) NaN (Num 10) (Str "a0");
   observation "A" 1964 (Num 3) (Num 60) (Num 20) (Str "a1")].

(** Scenario 2: country "B" with [pop] known in 1965 only. *)
Definition scenario2 : list row :=
  [observation "B" 1964 (Num 4) (Num 61) NaN (Str "b0");
   observation "B" 1965 (Num 4) (Num 62) (Num 100) (Str "b1");
   observation "B" 1966 (Num 4) (Num 63) NaN (Str "b2")].

(** Scenario 3: a row without ID, and one with. *)
Definition scenario3 : list row :=
  [observation "C" 1964 (Num 2) (Num 70) (Num 7) NaN;
   observation "C" 1965 (Num 2) (Num 71) (Num 8) (Str "c1")].

(** One country, rows not in Year order. *)
Definition unsorted_years : list row :=
  [observation "A" 1966 (Num 3) (Num 60) (Num 300) (Str "a0");
   observation "A" 1964 (Num 3) (Num 60) NaN (Str "a1");
   observation "A" 1965 (Num 3) (Num 60) (Num 200) (Str "a2")].

(** Country "A" has no [pop] at all; country "B" follows it. *)
Definition no_pop_then_other : list row :=
  [observation "A" 1964 (Num 5) (Num 50) NaN (Str "a0");
   observation "A" 1965 (Num 5) (Num 51) NaN (Str "a1");
   observation "B" 1964 (Num 4) (Num 61) (Num 100) (Str "b0")].

(** Two countries, rows interleaved. *)
Definition interleaved : list row :=
  [observation "A" 1964 (Num 5) (Num 50) (Num 100) (Str "a0");
   observation "B" 1964 (Num 4) (Num 61) NaN (Str "b0");
   observation "A" 1965 (Num 5) (Num 51) NaN (Str "a1");
   observation "B" 1965 (Num 4) (Num 62) (Num 50) (Str "b1")].

(** A row whose Fertility field is text that is no number. *)
Definition malformed : list row :=
  [observation "A" 1964 (Str "abc") (Num 60) (Num 10) (Str "a0")].

(** ** Auxiliary definitions for the statements *)

(** The key and the value that [groupby_ffill_from] records for a row. *)
Definition key_value (by_ c : column) (ir : nat * row) : cell * cell :=
  (get by_ (snd ir), get c (snd ir)).

(** A retained row once its [pop] cell is replaced by [v] and its [ID]
    filled. *)
Definition cleaned_row (v : cell) (r : row) : row :=
  set ID (if isna (get ID r) then Str "Unknown" else get ID r) (set pop v r).

(** The forward-filled [pop] of row [r], the rows before it being [pre]. *)
Definition forward_pop (pre : DataFrame) (r : row) : cell :=
  if isna (get Country r) then NaN
  else if isna (get pop r)
       then last_valid_in_group (get Country r) (rev (map (key_value Country pop) pre))
       else get pop r.

(** The columns [load_data] never writes. *)
Definition untouched (r : row) : cell * cell * cell * cell * cell :=
  (get Country r, get Region r, get Year r, get Fertility r, get lifeExp r).

(** Whether input row number [i] survives [dropna]. *)
Definition kept_at (rawRecords : list row) (i : nat) : bool :=
  match nth_error rawRecords i with
  | Some r => complete [lifeExp; Fertility] r
  | None => false
  end.

(** The first value of a series that is not missing, [NaN] when it has
    none. *)
Definition first_valid (s : Series) : cell :=
  match find (fun iv => negb (isna (snd iv))) s with
  | Some iv => snd iv
  | None => NaN
  end.

(** Rows labelled from [first] on, as they stand in a frame below its
    first [first] rows. *)
Definition RangeIndex_from (first : nat) (rows : list row) : DataFrame :=
  combine (seq first (List.length rows)) rows.

(** ** [make_plot], [setup_slider] and [main] *)

(** The exceptions of [make_plot]: a [KeyError], with the key that was
    not found, a column of [source.data] or a size asked of [Category20];
    and the [ValueError] of bokeh for factors that are not all text. *)
Inductive PlotError : Type :=
| KeyError_column (c : column)
| KeyError_int (n : nat)
| ValueError_factors (factors : list cell).

Definition is_text (v : cell) : bool :=
  match v with
  | Str _ => true
  | _ => false
  end.

(** [d[c]] where a missing key is an error. *)
Definition dict_get (c : column) (d : list (column * list cell)) : option (list cell) :=
  match find (fun cv => column_eqb (fst cv) c) d with
  | Some cv => Some (snd cv)
  | None => None
  end.

(** A bokeh [ColumnDataSource]: the columns it holds and, when it was built
    from a frame, the frame's index, which bokeh adds as one more column. *)
Record ColumnDataSource : Type := mkSource {
  source_index : option (list nat);
  source_columns : list (column * list cell)
}.

(** [ColumnDataSource(data=df)] *)
Definition ColumnDataSource_of (df : DataFrame) : ColumnDataSource :=
  {| source_index := Some (index df); source_columns := to_dict_list df |}.

(** The same for a frame that may lack columns: only those it has. *)
Definition ColumnDataSource_frame (df : Frame) : ColumnDataSource :=
  {| source_index := Some (index (frame_rows df));
     source_columns :=
       filter (fun cv => has_column (fst cv) (frame_columns df))
              (to_dict_list (frame_rows df)) |}.

(** What [factor_cmap] returns: the field, the palette and the factors. *)
Record ColorMapper : Type := mkColorMapper {
  cm_field : column;
  cm_palette : list string;
  cm_factors : list cell
}.

(** The arguments of [p.scatter]. *)
Record Scatter : Type := mkScatter {
  scatter_x : column;
  scatter_y : column;
  scatter_size : Z;
  scatter_source : ColumnDataSource;
  scatter_color : ColorMapper;
  scatter_line_color : string;
  scatter_fill_alpha : Q
}.

(** The figure [make_plot] returns: the arguments of [figure], the scatter
    glyph and the tooltips of the hover tool. *)
Record Figure : Type := mkFigure {
  fig_title : string;
  fig_x_axis_label : string;
  fig_y_axis_label : string;
  fig_height : Z;
  fig_width : Z;
  fig_tools : string;
  fig_scatter : Scatter;
  fig_tooltips : list (string * string)
}.

(** The arguments of [Slider]. *)
Record Slider : Type := mkSlider {
  sl_start : Z;
  sl_end : Z;
  sl_value : Z;
  sl_step : Z;
  sl_title : string
}.

Section Plot.

(** [bokeh.palettes.Category20]: the palette of each size it has. *)
Variable Category20 : nat -> option (list string).

(** [list(set(values))]: the distinct values, in the order the set yields
    them. *)
Variable list_set : list cell -> list cell.

Definition make_plot (source : ColumnDataSource) (initial_year : Z) : PlotError + Figure :=
  match dict_get Region (source_columns source) with
  | None => inl (KeyError_column Region)
  | Some values =>
      let regions := list_set values in
      let size := if Nat.leb (List.length regions) 20 then List.length regions else 20 in
      match Category20 size with
      | None => inl (KeyError_int size)
      | Some palette =>
          if negb (forallb is_text regions) then inl (ValueError_factors regions) else
          let color_mapper := mkColorMapper Region palette regions in
          inr {| fig_title := "Life Expectancy vs Fertility in " ++ format_int initial_year;
                 fig_x_axis_label := "Fertility";
                 fig_y_axis_label := "Life Expectancy";
                 fig_height := 600;
                 fig_width := 800;
                 fig_tools := "pan,wheel_zoom,reset,save";
                 fig_scatter :=
                   {| scatter_x := Fertility;
                      scatter_y := lifeExp;
                      scatter_size := 10;
                      scatter_source := source;
                      scatter_color := color_mapper;
                      scatter_line_color := "black";
                      scatter_fill_alpha := 0.6 |};
                 fig_tooltips :=
                   [("Country", "@Country"); ("Population", "@pop");
                    ("Life Exp.", "@lifeExp"); ("Fertility", "@Fertility")] |}
      end
  end.

(** The slider [setup_slider] returns; its callback is [update_plot]. *)
Definition setup_slider (initial_year : Z) : Slider :=
  {| sl_start := 1964;
     sl_end := 2013;
     sl_value := initial_year;
     sl_step := 1;
     sl_title := "Year" |}.

Variable parse_csv : string -> DataLoadError + Table.

(** [main]: the exception that ends it, or the plot and the slider it puts
    in the document.  [data['Year']] is a [KeyError] on a frame without
    that column. *)
Definition main (fs : filesystem) : (DataLoadError + PlotError) + (Figure * Slider) :=
  match load_data parse_csv "gapminder.csv" fs with
  | inl e => inl (inl e)
  | inr data =>
      let initial_year := 1964%Z in
      if negb (has_column Year (frame_columns data)) then inl (inr (KeyError_column Year)) else
      let source :=
        ColumnDataSource_frame
          (mkFrame (frame_columns data)
             (getitem_mask (eq_scalar (col Year (frame_rows data))
                                      (Num (inject_Z initial_year)))
                           (frame_rows data))) in
      match make_plot source initial_year with
      | inl e => inl (inr e)
      | inr plot =>
          let slider := setup_slider initial_year in
          inr (plot, slider)
      end
  end.

End Plot.

(** A table with the shape of [Category20]: palettes of 3 to 20 colours,
    the first colours of the longest. *)
Definition Category20_20 : list string :=
  ["#1f77b4"; "#aec7e8"; "#ff7f0e"; "#ffbb78"; "#2ca02c"; "#98df8a"; "#d62728";
   "#ff9896"; "#9467bd"; "#c5b0d5"; "#8c564b"; "#c49c94"; "#e377c2"; "#f7b6d2";
   "#7f7f7f"; "#c7c7c7"; "#bcbd22"; "#dbdb8d"; "#17becf"; "#9edae5"].

Definition sample_Category20 (n : nat) : option (list string) :=
  if Nat.leb 3 n && Nat.leb n 20 then Some (firstn n Category20_20) else None.

(** One way to list the distinct values: by first occurrence. *)
Fixpoint first_occurrences (l : list cell) : list cell :=
  match l with
  | [] => []
  | x :: l' => x :: filter (fun y => negb (cell_eqb x y)) (first_occurrences l')
  end.

(** Tables of 1964 rows with two and with three Regions. *)
Definition with_region (region : string) (r : row) : row := set Region (Str region) r.

Definition two_regions : list row :=
  [with_region "Asia" (observation "A" 1964 (Num 5) (Num 50) (Num 100) (Str "a0"));
   with_region "Europe" (observation "B" 1964 (Num 4) (Num 61) (Num 90) (Str "b0"));
   with_region "Asia" (observation "C" 1964 (Num 2) (Num 70) (Num 7) (Str "c0"))].

Definition three_regions : list row :=
  two_regions ++
  [with_region "Africa" (observation "D" 1964 (Num 6) (Num 45) (Num 30) (Str "d0"))].

(** The columns [load_data] reads. *)
Definition needed : list column := [lifeExp; Fertility; Country; pop; ID].

(** Tables that lack columns. *)
Definition without (absent : list column) (rows : list row) : Table :=
  mkTable (missing_columns columns absent) rows.

(** * Properties *)

(** ** Equality of cells *)

Lemma cell_eqb_refl (k : cell) : isna k = false -> cell_eqb k k = true.
Proof.
  destruct k as [|x|s]; simpl; intros H.
  - discriminate.
  - apply Qeq_bool_iff. reflexivity.
  - apply String.eqb_refl.
Qed.

Lemma cell_eqb_sym (a b : cell) : cell_eqb a b = cell_eqb b a.
Proof.
  destruct a as [|x|s], b as [|y|t]; simpl; try reflexivity.
  - destruct (Qeq_bool x y) eqn:E, (Qeq_bool y x) eqn:E'; try reflexivity.
    + apply Qeq_bool_iff in E. symmetry in E. apply Qeq_bool_iff in E. congruence.
    + apply Qeq_bool_iff in E'. symmetry in E'. apply Qeq_bool_iff in E'. congruence.
  - apply String.eqb_sym.
Qed.

Lemma cell_eqb_trans (a b c : cell) :
  cell_eqb a b = true -> cell_eqb b c = true -> cell_eqb a c = true.
Proof.
  destruct a as [|x|s], b as [|y|t], c as [|z|u]; simpl; try discriminate.
  - intros H1 H2. apply Qeq_bool_iff in H1, H2. apply Qeq_bool_iff.
    now rewrite H1.
  - intros H1 H2. apply String.eqb_eq in H1, H2. subst. apply String.eqb_refl.
Qed.

Lemma cell_eqb_isna (a b : cell) : cell_eqb a b = true -> isna a = false /\ isna b = false.
Proof. destruct a, b; simpl; intros H; try discriminate; auto. Qed.

Lemma cell_eqb_congr (a b x : cell) :
  cell_eqb a b = true -> cell_eqb x a = cell_eqb x b.
Proof.
  intros H.
  destruct (cell_eqb x a) eqn:E1, (cell_eqb x b) eqn:E2; try reflexivity.
  - rewrite (cell_eqb_trans x a b E1 H) in E2. discriminate.
  - rewrite cell_eqb_sym in H. rewrite (cell_eqb_trans x b a E2 H) in E1. discriminate.
Qed.

(** ** Rows *)

Lemma get_set_same (c : column) (v : cell) (r : row) : get c (set c v r) = v.
Proof. destruct c; reflexivity. Qed.

Lemma get_set_other (c d : column) (v : cell) (r : row) :
  c <> d -> get d (set c v r) = get d r.
Proof. destruct c, d; intros H; try reflexivity; contradiction. Qed.

(** ** Index labels *)

Lemma index_equals_refl (a : list nat) : index_equals a a = true.
Proof. induction a as [|i a IH]; simpl; [reflexivity|]. now rewrite Nat.eqb_refl. Qed.

Lemma index_col (c : column) (df : DataFrame) : index (col c df) = index df.
Proof. unfold index, col. rewrite map_map. reflexivity. Qed.

Lemma index_fillna (v : cell) (s : Series) : index (fillna v s) = index s.
Proof. unfold index, fillna. rewrite map_map. reflexivity. Qed.

Lemma index_ffill_from (last : cell) (s : Series) : index (ffill_from last s) = index s.
Proof.
  revert last. induction s as [|[i v] s IH]; intros last; simpl; [reflexivity|].
  now rewrite IH.
Qed.

Lemma index_bfill (s : Series) : index (bfill s) = index s.
Proof. induction s as [|[i v] s IH]; simpl; [reflexivity|]. now rewrite IH. Qed.

Lemma index_groupby_ffill_from (by_ c : column) (seen : list (cell * cell)) (df : DataFrame) :
  index (groupby_ffill_from by_ c seen df) = index df.
Proof.
  revert seen. induction df as [|[i r] df IH]; intros seen; simpl; [reflexivity|].
  now rewrite IH.
Qed.

Lemma index_length {A : Type} (l : list (nat * A)) : List.length (index l) = List.length l.
Proof. unfold index. apply length_map. Qed.

Lemma setitem_aligned (c : column) (s : Series) (df : DataFrame) :
  index s = index df ->
  setitem c s df =
  map (fun p => (fst (fst p), set c (snd (snd p)) (snd (fst p)))) (combine df s).
Proof. intros H. unfold setitem. rewrite H, index_equals_refl. reflexivity. Qed.

Lemma index_setitem (c : column) (s : Series) (df : DataFrame) :
  index (setitem c s df) = index df.
Proof.
  unfold setitem. destruct (index_equals (index s) (index df)) eqn:E.
  - assert (H : index s = index df).
    { revert E. generalize (index s) (index df). intros a.
      induction a as [|i a IH]; intros [|j b]; simpl; try discriminate; auto.
      intros E. apply andb_prop in E. destruct E as [E1 E2].
      apply Nat.eqb_eq in E1. subst. f_equal. auto. }
    unfold index in *. rewrite map_map. simpl.
    assert (L : List.length s = List.length df).
    { rewrite <- (length_map fst s), H, length_map. reflexivity. }
    clear E H. revert s L. induction df as [|x df IH]; intros [|y s] L; simpl in *; try discriminate; auto.
    f_equal. apply IH. lia.
  - unfold index. rewrite map_map. reflexivity.
Qed.

(** ** Lists *)

Lemma combine_app_same {A B : Type} (a1 a2 : list A) (b1 b2 : list B) :
  List.length a1 = List.length b1 ->
  combine (a1 ++ a2) (b1 ++ b2) = combine a1 b1 ++ combine a2 b2.
Proof.
  revert b1. induction a1 as [|x a1 IH]; intros [|y b1] L; simpl in *; try discriminate.
  - reflexivity.
  - f_equal. apply IH. lia.
Qed.

Lemma combine_map_self {A B : Type} (f : A -> B) (l : list A) :
  combine l (map f l) = map (fun x => (x, f x)) l.
Proof. induction l as [|x l IH]; simpl; [reflexivity|]. now rewrite IH. Qed.

Lemma find_skip {A : Type} (p : A -> bool) (l1 l2 : list A) :
  (forall x, In x l1 -> p x = false) -> find p (l1 ++ l2) = find p l2.
Proof.
  induction l1 as [|x l1 IH]; intros H; simpl; [reflexivity|].
  rewrite (H x (or_introl eq_refl)). apply IH. intros y Hy. apply H. now right.
Qed.

Lemma find_exists {A : Type} (p : A -> bool) (l : list A) (x : A) :
  In x l -> p x = true -> exists y, find p l = Some y /\ p y = true.
Proof.
  induction l as [|a l IH]; intros HI Hp; simpl; [contradiction|].
  destruct (p a) eqn:E.
  - exists a. auto.
  - destruct HI as [->|HI]; [congruence|]. auto.
Qed.

(** ** The fills *)

Lemma length_groupby_ffill_from (by_ c : column) (seen : list (cell * cell)) (df : DataFrame) :
  List.length (groupby_ffill_from by_ c seen df) = List.length df.
Proof. rewrite <- index_length, index_groupby_ffill_from. apply index_length. Qed.

Lemma length_bfill (s : Series) : List.length (bfill s) = List.length s.
Proof. rewrite <- index_length, index_bfill. apply index_length. Qed.

Lemma groupby_ffill_from_app (by_ c : column) (seen : list (cell * cell)) (l1 l2 : DataFrame) :
  groupby_ffill_from by_ c seen (l1 ++ l2) =
  groupby_ffill_from by_ c seen l1 ++
  groupby_ffill_from by_ c (rev (map (key_value by_ c) l1) ++ seen) l2.
Proof.
  revert seen. induction l1 as [|[i r] l1 IH]; intros seen; simpl; [reflexivity|].
  f_equal. rewrite IH. rewrite <- app_assoc. reflexivity.
Qed.

Lemma bfill_app (s1 s2 : Series) :
  exists s1', List.length s1' = List.length s1 /\ bfill (s1 ++ s2) = s1' ++ bfill s2.
Proof.
  induction s1 as [|[i v] s1 [s1' [L E]]]; simpl.
  - exists []. auto.
  - rewrite E. eexists (_ :: s1'). split; [simpl; now rewrite L | reflexivity].
Qed.

Lemma first_value_bfill_valid (s : Series) (i : nat) (v : cell) :
  In (i, v) s -> isna v = false -> isna (first_value (bfill s)) = false.
Proof.
  induction s as [|[j w] s IH]; intros HI Hv; simpl; [contradiction|].
  destruct (isna w) eqn:E; [|exact E].
  destruct HI as [HI|HI]; [inversion HI; congruence|].
  specialize (IH HI Hv). destruct (bfill s) as [|[k u] t]; exact IH.
Qed.

Lemma first_value_bfill_source (s : Series) :
  isna (first_value (bfill s)) = false ->
  exists i, In (i, first_value (bfill s)) s.
Proof.
  induction s as [|[j w] s IH]; simpl; intros H; [discriminate|].
  destruct (isna w) eqn:E.
  - destruct (bfill s) as [|[k u] t] eqn:B; simpl in *; [discriminate|].
    destruct (IH H) as [i Hi]. exists i. now right.
  - exists j. now left.
Qed.

Lemma groupby_ffill_from_own (by_ c : column) (seen : list (cell * cell)) (df : DataFrame)
    (i : nat) (r : row) :
  In (i, r) df -> isna (get by_ r) = false -> isna (get c r) = false ->
  In (i, get c r) (groupby_ffill_from by_ c seen df).
Proof.
  revert seen. induction df as [|[j q] df IH]; intros seen HI Hk Hv; simpl; [contradiction|].
  destruct HI as [HI|HI].
  - inversion HI; subst. rewrite Hk, Hv. now left.
  - right. now apply IH.
Qed.

Lemma last_valid_in_group_valid (k : cell) (seen : list (cell * cell)) (kv : cell * cell) :
  In kv seen -> cell_eqb (fst kv) k = true -> isna (snd kv) = false ->
  isna (last_valid_in_group k seen) = false.
Proof.
  intros HI Hk Hv. unfold last_valid_in_group.
  destruct (find_exists (fun kv => cell_eqb (fst kv) k && negb (isna (snd kv))) seen kv HI)
    as [y [Hy Py]].
  { now rewrite Hk, Hv. }
  rewrite Hy. apply andb_prop in Py. destruct Py as [_ Py].
  now destruct (isna (snd y)).
Qed.

(** ** The shape of the cleaned frame *)

Lemma clean_rows (df : DataFrame) :
  clean df =
  map (fun p => (fst (fst p), cleaned_row (snd (snd p)) (snd (fst p))))
      (combine (dropna [lifeExp; Fertility] df)
               (bfill (groupby_ffill Country pop (dropna [lifeExp; Fertility] df)))).
Proof.
  unfold clean.
  set (kept := dropna [lifeExp; Fertility] df).
  set (s := bfill (groupby_ffill Country pop kept)).
  assert (Hs : index s = index kept).
  { unfold s, groupby_ffill. now rewrite index_bfill, index_groupby_ffill_from. }
  rewrite (setitem_aligned pop s kept Hs).
  set (df2 := map _ (combine kept s)).
  rewrite setitem_aligned by now rewrite index_fillna, index_col.
  unfold fillna, col. rewrite map_map, combine_map_self, map_map. simpl.
  unfold df2. rewrite map_map. simpl.
  apply map_ext. intros [[i r] [j v]]. simpl.
  reflexivity.
Qed.

Lemma prepare_rows (t : list row) :
  prepare t =
  map (fun p => (fst (fst p), cleaned_row (snd (snd p)) (snd (fst p))))
      (combine (retained t) (bfill (groupby_ffill Country pop (retained t)))).
Proof. apply clean_rows. Qed.

Lemma groupby_ffill_from_cons (by_ c : column) (seen : list (cell * cell))
    (i : nat) (r : row) (rest : DataFrame) :
  groupby_ffill_from by_ c seen ((i, r) :: rest) =
  (i, if isna (get by_ r) then NaN
      else if isna (get c r) then last_valid_in_group (get by_ r) seen
      else get c r)
  :: groupby_ffill_from by_ c (key_value by_ c (i, r) :: seen) rest.
Proof. reflexivity. Qed.

Lemma bfill_cons (i : nat) (v : cell) (s : Series) :
  bfill ((i, v) :: s) = (i, if isna v then first_value (bfill s) else v) :: bfill s.
Proof. reflexivity. Qed.

(** The cleaned row at a position of the retained frame. *)
Lemma prepare_at (t : list row) (pre post : DataFrame) (i : nat) (r : row) :
  retained t = pre ++ (i, r) :: post ->
  let f := forward_pop pre r in
  let later :=
    groupby_ffill_from Country pop
      (rev (map (key_value Country pop) (pre ++ [(i, r)]))) post in
  nth_error (prepare t) (List.length pre) =
  Some (i, cleaned_row (if isna f then first_value (bfill later) else f) r).
Proof.
  intros E f later. rewrite prepare_rows, E. unfold groupby_ffill.
  rewrite groupby_ffill_from_app, groupby_ffill_from_cons, app_nil_r.
  fold (forward_pop pre r). fold f.
  replace (key_value Country pop (i, r) :: rev (map (key_value Country pop) pre))
    with (rev (map (key_value Country pop) (pre ++ [(i, r)])))
    by (rewrite map_app, rev_app_distr; reflexivity).
  fold later.
  set (s1 := groupby_ffill_from Country pop [] pre).
  destruct (bfill_app s1 ((i, f) :: later)) as [s1' [L B]].
  rewrite B, bfill_cons.
  assert (L' : List.length pre = List.length s1').
  { rewrite L. unfold s1. now rewrite length_groupby_ffill_from. }
  rewrite combine_app_same by exact L'.
  rewrite map_app, nth_error_app2; rewrite length_map, length_combine, <- L', Nat.min_id;
    [|lia].
  rewrite Nat.sub_diag. reflexivity.
Qed.

(** ** The retained rows *)

Lemma complete_essentials (r : row) :
  complete [lifeExp; Fertility] r = true <->
  isna (get Fertility r) = false /\ isna (get lifeExp r) = false.
Proof.
  unfold complete. simpl.
  destruct (isna (c_lifeExp r)), (isna (c_Fertility r)); simpl; intuition congruence.
Qed.

Lemma in_combine_seq {A : Type} (l : list A) (a i : nat) (x : A) :
  In (i, x) (combine (seq a (List.length l)) l) <-> a <= i /\ nth_error l (i - a) = Some x.
Proof.
  revert a. induction l as [|y l IH]; intros a; simpl.
  - split; [contradiction|]. intros [_ H]. destruct (i - a); discriminate.
  - rewrite IH. split.
    + intros [H|[H1 H2]].
      * inversion H; subst. split; [lia|]. now rewrite Nat.sub_diag.
      * split; [lia|]. replace (i - a) with (S (i - S a)) by lia. exact H2.
    + intros [H1 H2]. destruct (i - a) as [|n] eqn:E.
      * left. simpl in H2. inversion H2. f_equal. lia.
      * right. split; [lia|]. simpl in H2. replace (i - S a) with n by lia. exact H2.
Qed.

Lemma in_RangeIndex (t : list row) (i : nat) (r : row) :
  In (i, r) (RangeIndex t) <-> nth_error t i = Some r.
Proof.
  unfold RangeIndex. rewrite in_combine_seq, Nat.sub_0_r. intuition lia.
Qed.

Lemma in_retained (t : list row) (i : nat) (r : row) :
  In (i, r) (retained t) <->
  nth_error t i = Some r /\ isna (get Fertility r) = false /\ isna (get lifeExp r) = false.
Proof.
  unfold retained, dropna. rewrite filter_In, in_RangeIndex. cbn [snd].
  now rewrite complete_essentials.
Qed.

Lemma filter_combine_seq {A : Type} (p : A -> bool) (l : list A) (a : nat) :
  map snd (filter (fun ix => p (snd ix)) (combine (seq a (List.length l)) l)) = filter p l
  /\ map fst (filter (fun ix => p (snd ix)) (combine (seq a (List.length l)) l)) =
     filter (fun i => match nth_error l (i - a) with Some x => p x | None => false end)
            (seq a (List.length l)).
Proof.
  revert a. induction l as [|x l IH]; intros a; simpl; [auto|].
  destruct (IH (S a)) as [IH1 IH2].
  assert (E : filter (fun i => match nth_error (x :: l) (i - a) with
                               | Some y => p y | None => false end)
                     (seq (S a) (List.length l)) =
              filter (fun i => match nth_error l (i - S a) with
                               | Some y => p y | None => false end)
                     (seq (S a) (List.length l))).
  { apply filter_ext_in. intros i Hi. apply in_seq in Hi.
    replace (i - a) with (S (i - S a)) by lia. reflexivity. }
  rewrite Nat.sub_diag. simpl. rewrite E.
  destruct (p x); simpl; rewrite IH1, IH2; auto.
Qed.

Lemma rows_retained (t : list row) :
  map snd (retained t) = filter (complete [lifeExp; Fertility]) t.
Proof. apply (filter_combine_seq (complete [lifeExp; Fertility]) t 0). Qed.

Lemma index_retained (t : list row) :
  index (retained t) = filter (kept_at t) (seq 0 (List.length t)).
Proof.
  unfold index, retained, dropna, RangeIndex.
  rewrite (proj2 (filter_combine_seq (complete [lifeExp; Fertility]) t 0)).
  apply filter_ext. intros i. unfold kept_at. now rewrite Nat.sub_0_r.
Qed.

(** ** The cleaned rows against the retained rows *)

Lemma length_fill_retained (t : list row) :
  List.length (bfill (groupby_ffill Country pop (retained t))) = List.length (retained t).
Proof. unfold groupby_ffill. now rewrite length_bfill, length_groupby_ffill_from. Qed.

Lemma map_combine_fst {A B C : Type} (f : A -> C) (l : list A) (s : list B) :
  List.length s = List.length l ->
  map (fun p => f (fst p)) (combine l s) = map f l.
Proof.
  revert s. induction l as [|x l IH]; intros [|y s] L; simpl in *; try discriminate; auto.
  f_equal. apply IH. lia.
Qed.

Lemma index_prepare (t : list row) : index (prepare t) = index (retained t).
Proof.
  rewrite prepare_rows. unfold index. rewrite map_map. simpl.
  apply (map_combine_fst fst). apply length_fill_retained.
Qed.

Lemma untouched_cleaned_row (v : cell) (r : row) : untouched (cleaned_row v r) = untouched r.
Proof. reflexivity. Qed.

Lemma untouched_prepare (t : list row) :
  map (fun ir => untouched (snd ir)) (prepare t) =
  map (fun ir => untouched (snd ir)) (retained t).
Proof.
  rewrite prepare_rows, map_map. simpl.
  apply (map_combine_fst (fun ir => untouched (snd ir))). apply length_fill_retained.
Qed.

Lemma in_prepare (t : list row) (i : nat) (r' : row) :
  In (i, r') (prepare t) ->
  exists r v, In (i, r) (retained t) /\ r' = cleaned_row v r.
Proof.
  rewrite prepare_rows. intros H. apply in_map_iff in H.
  destruct H as [[[j r] [k v]] [E H]]. simpl in E. inversion E; subst.
  exists r, v. split; [|reflexivity]. eapply in_combine_l. exact H.
Qed.

Lemma NoDup_index_prepare (t : list row) : NoDup (index (prepare t)).
Proof.
  rewrite index_prepare, index_retained. apply NoDup_filter, seq_NoDup.
Qed.

(** ** The prepared dataset: rows, order and untouched columns *)

(** C4: no record of the prepared dataset misses Fertility or lifeExp; the
    records kept are exactly the input rows that have both, and they keep
    the values they had. *)
Theorem prepare_essentials_present (t : list row) :
  Forall (fun ir => isna (get Fertility (snd ir)) = false /\
                    isna (get lifeExp (snd ir)) = false) (prepare t) /\
  (forall i, In i (index (prepare t)) <->
             exists r, nth_error t i = Some r /\
                       isna (get Fertility r) = false /\ isna (get lifeExp r) = false) /\
  (forall i r', In (i, r') (prepare t) ->
                exists r, nth_error t i = Some r /\
                          get Fertility r' = get Fertility r /\
                          get lifeExp r' = get lifeExp r).
Proof.
  split; [|split].
  - apply Forall_forall. intros [i r'] H.
    destruct (in_prepare t i r' H) as [r [v [Hr ->]]].
    apply in_retained in Hr. destruct Hr as [_ Hr]. exact Hr.
  - intros i. rewrite index_prepare. unfold index. rewrite in_map_iff. split.
    + intros [[j r] [E H]]. simpl in E. subst j. exists r. now apply in_retained.
    + intros [r H]. exists (i, r). split; [reflexivity|]. now apply in_retained.
  - intros i r' H.
    destruct (in_prepare t i r' H) as [r [v [Hr ->]]].
    apply in_retained in Hr. destruct Hr as [Hr _]. exists r. auto.
Qed.

(** C5: no record of the prepared dataset misses its ID: a record whose
    input ID is missing has ID "Unknown", any other keeps its ID. *)
Theorem prepare_ID_filled (t : list row) (i : nat) (r' : row) :
  In (i, r') (prepare t) ->
  exists r, nth_error t i = Some r /\
            isna (get ID r') = false /\
            (isna (get ID r) = true -> get ID r' = Str "Unknown") /\
            (isna (get ID r) = false -> get ID r' = get ID r).
Proof.
  intros H. destruct (in_prepare t i r' H) as [r [v [Hr ->]]].
  apply in_retained in Hr. destruct Hr as [Hr _]. exists r.
  split; [exact Hr|]. unfold cleaned_row. rewrite get_set_same.
  destruct (isna (get ID r)) eqn:E; repeat split; auto; discriminate.
Qed.

Lemma prepare_ID_filled_witness :
  In (0, observation "C" 1964 (Num 2) (Num 70) (Num 7) (Str "Unknown")) (prepare scenario3) /\
  exists r, nth_error scenario3 0 = Some r /\
            isna (get ID (observation "C" 1964 (Num 2) (Num 70) (Num 7) (Str "Unknown"))) = false /\
            (isna (get ID r) = true ->
             get ID (observation "C" 1964 (Num 2) (Num 70) (Num 7) (Str "Unknown")) = Str "Unknown") /\
            (isna (get ID r) = false ->
             get ID (observation "C" 1964 (Num 2) (Num 70) (Num 7) (Str "Unknown")) = get ID r).
Proof.
  split.
  - left. reflexivity.
  - apply (prepare_ID_filled scenario3 0). left. reflexivity.
Defined.

(** C9: the prepared dataset is the input with the dropped rows removed,
    in the input's order: its labels are the numbers of the retained input
    rows in increasing order, and its rows are the retained input rows in
    that order, the columns [load_data] writes apart. *)
Theorem prepare_keeps_order (t : list row) :
  index (prepare t) = filter (kept_at t) (seq 0 (List.length t)) /\
  map (fun ir => untouched (snd ir)) (prepare t) =
  map untouched (filter (complete [lifeExp; Fertility]) t).
Proof.
  split.
  - rewrite index_prepare. apply index_retained.
  - rewrite untouched_prepare, <- rows_retained, map_map. reflexivity.
Qed.

(** C10: a record of the prepared dataset has the Country, Region, Year,
    Fertility and lifeExp of the input row it comes from. *)
Theorem prepare_frame (t : list row) (i : nat) (r' : row) :
  In (i, r') (prepare t) ->
  exists r, nth_error t i = Some r /\
            get Country r' = get Country r /\
            get Region r' = get Region r /\
            get Year r' = get Year r /\
            get Fertility r' = get Fertility r /\
            get lifeExp r' = get lifeExp r.
Proof.
  intros H. destruct (in_prepare t i r' H) as [r [v [Hr ->]]].
  apply in_retained in Hr. destruct Hr as [Hr _]. exists r.
  repeat split; auto.
Qed.

Lemma prepare_frame_witness :
  In (2, observation "B" 1966 (Num 4) (Num 63) (Num 100) (Str "b2")) (prepare scenario2) /\
  exists r, nth_error scenario2 2 = Some r /\
            Str "B" = get Country r /\
            Str "Region" = get Region r /\
            Num (inject_Z 1966) = get Year r /\
            Num 4 = get Fertility r /\
            Num 63 = get lifeExp r.
Proof.
  split.
  - right. right. left. reflexivity.
  - apply (prepare_frame scenario2 2
             (observation "B" 1966 (Num 4) (Num 63) (Num 100) (Str "b2"))).
    right. right. left. reflexivity.
Defined.

(** Scenario 1: only the second row is kept. *)
Example prepare_scenario1 :
  prepare scenario1 = [(1, observation "A" 1964 (Num 3) (Num 60) (Num 20) (Str "a1"))].
Proof. reflexivity. Qed.

(** Scenario 2: 1964 is filled backward and 1966 forward, both with 100. *)
Example prepare_scenario2 :
  map (fun ir => get pop (snd ir)) (prepare scenario2) = [Num 100; Num 100; Num 100].
Proof. reflexivity. Qed.

(** Scenario 3: the missing ID becomes "Unknown". *)
Example prepare_scenario3 :
  map (fun ir => get ID (snd ir)) (prepare scenario3) = [Str "Unknown"; Str "c1"].
Proof. reflexivity. Qed.

(** ** The fill of [pop] *)

(** The grouped forward fill, group by group, is the plain forward fill of
    the group's rows. *)
Lemma last_valid_in_group_congr (k k' : cell) (seen : list (cell * cell)) :
  cell_eqb k k' = true -> last_valid_in_group k seen = last_valid_in_group k' seen.
Proof.
  intros H. unfold last_valid_in_group.
  replace (find (fun kv => cell_eqb (fst kv) k && negb (isna (snd kv))) seen)
    with (find (fun kv => cell_eqb (fst kv) k' && negb (isna (snd kv))) seen);
    [reflexivity|].
  induction seen as [|kv seen IH]; simpl; [reflexivity|].
  now rewrite (cell_eqb_congr k k' (fst kv) H), IH.
Qed.

Lemma groupby_ffill_from_group (by_ c : column) (k : cell) (seen : list (cell * cell))
    (df : DataFrame) :
  map snd (filter (fun p => cell_eqb (get by_ (snd (fst p))) k)
                  (combine df (groupby_ffill_from by_ c seen df))) =
  ffill_from (last_valid_in_group k seen) (col c (group_rows by_ k df)).
Proof.
  revert seen. induction df as [|[i r] df IH]; intros seen; [reflexivity|].
  rewrite groupby_ffill_from_cons. cbn [combine filter fst snd group_rows col map].
  destruct (cell_eqb (get by_ r) k) eqn:E.
  - destruct (cell_eqb_isna _ _ E) as [Hk _]. rewrite Hk.
    cbn [map snd ffill_from fst]. fold (group_rows by_ k df). fold (col c (group_rows by_ k df)).
    rewrite (last_valid_in_group_congr _ _ seen E).
    f_equal. rewrite IH. f_equal.
    unfold last_valid_in_group at 1. cbn [find key_value fst snd]. rewrite E.
    destruct (isna (get c r)); reflexivity.
  - fold (group_rows by_ k df). fold (col c (group_rows by_ k df)).
    rewrite IH. f_equal.
    unfold last_valid_in_group at 1. cbn [find key_value fst snd]. rewrite E. reflexivity.
Qed.

(** Inside each group the grouped forward fill is the plain one: the
    values [groupby(by)[c].ffill()] gives the rows of a group, in row order,
    are those of [ffill] run on the rows of that group alone. *)
Lemma groupby_ffill_group (by_ c : column) (k : cell) (df : DataFrame) :
  map snd (filter (fun p => cell_eqb (get by_ (snd (fst p))) k)
                  (combine df (groupby_ffill by_ c df))) =
  ffill (col c (group_rows by_ k df)).
Proof. apply groupby_ffill_from_group. Qed.

(** The forward-filled value is the [pop] of the last row of the same
    Country, up to the row itself, that has one. *)
Lemma forward_pop_last_known (pre pre1 mid : DataFrame) (i j : nat) (r rm : row) :
  pre ++ [(i, r)] = pre1 ++ (j, rm) :: mid ->
  cell_eqb (get Country rm) (get Country r) = true ->
  isna (get pop rm) = false ->
  (forall p rp, In (p, rp) mid ->
                cell_eqb (get Country rp) (get Country r) = true ->
                isna (get pop rp) = true) ->
  forward_pop pre r = get pop rm.
Proof.
  intros E Hk Hv Hmid. destruct (cell_eqb_isna _ _ Hk) as [_ Hkr].
  unfold forward_pop. rewrite Hkr.
  destruct mid as [|x mid _] using rev_ind.
  - apply app_inj_tail in E. destruct E as [_ E]. inversion E; subst. now rewrite Hv.
  - change (pre1 ++ (j, rm) :: mid ++ [x]) with (pre1 ++ ((j, rm) :: mid) ++ [x]) in E.
    rewrite app_assoc in E. apply app_inj_tail in E. destruct E as [E <-].
    rewrite (Hmid i r) by (try apply in_or_app; try (right; left; reflexivity);
                           apply cell_eqb_refl; exact Hkr).
    subst pre. rewrite map_app, rev_app_distr. cbn [map rev]. rewrite <- app_assoc.
    unfold last_valid_in_group. rewrite find_skip.
    + cbn [app find key_value fst snd]. now rewrite Hk, Hv.
    + intros kv Hx. apply in_rev, in_map_iff in Hx.
      destruct Hx as [[p rp] [<- Hp]].
      cbn [key_value fst snd]. destruct (cell_eqb (get Country rp) (get Country r)) eqn:Ep; [|reflexivity].
      rewrite (Hmid p rp); [reflexivity| |exact Ep].
      apply in_or_app. now left.
Qed.

Lemma forward_pop_valid (pre : DataFrame) (i j : nat) (r rm : row) :
  In (j, rm) (pre ++ [(i, r)]) ->
  cell_eqb (get Country rm) (get Country r) = true ->
  isna (get pop rm) = false ->
  isna (forward_pop pre r) = false.
Proof.
  intros HI Hk Hv. destruct (cell_eqb_isna _ _ Hk) as [_ Hkr].
  unfold forward_pop. rewrite Hkr.
  destruct (isna (get pop r)) eqn:Er; [|exact Er].
  apply in_app_or in HI. destruct HI as [HI|[HI|[]]].
  - apply (last_valid_in_group_valid _ _ (key_value Country pop (j, rm))); auto.
    apply in_rev. rewrite rev_involutive. now apply in_map.
  - inversion HI; subst. congruence.
Qed.

Lemma later_pop_valid (seen : list (cell * cell)) (post : DataFrame) (j : nat) (r rm : row) :
  In (j, rm) post ->
  cell_eqb (get Country rm) (get Country r) = true ->
  isna (get pop rm) = false ->
  isna (first_value (bfill (groupby_ffill_from Country pop seen post))) = false.
Proof.
  intros HI Hk Hv. destruct (cell_eqb_isna _ _ Hk) as [Hkm _].
  apply (first_value_bfill_valid _ j (get pop rm)); [|exact Hv].
  now apply groupby_ffill_from_own.
Qed.

(** C2, as the code has it: in a Country group of the retained rows with a
    known [pop], every record has a [pop] after preparation; and a record
    that has a [pop], or comes after a record of its Country that has one,
    gets the [pop] of the last such record up to itself, in row order. *)
Theorem prepare_pop_filled (t : list row) (pre post : DataFrame) (i : nat) (r : row) :
  retained t = pre ++ (i, r) :: post ->
  (exists j rm, In (j, rm) (retained t) /\
                cell_eqb (get Country rm) (get Country r) = true /\
                isna (get pop rm) = false) ->
  exists r', nth_error (prepare t) (List.length pre) = Some (i, r') /\
             isna (get pop r') = false /\
             (forall pre1 j rm mid,
                 pre ++ [(i, r)] = pre1 ++ (j, rm) :: mid ->
                 cell_eqb (get Country rm) (get Country r) = true ->
                 isna (get pop rm) = false ->
                 (forall p rp, In (p, rp) mid ->
                               cell_eqb (get Country rp) (get Country r) = true ->
                               isna (get pop rp) = true) ->
                 get pop r' = get pop rm).
Proof.
  intros E [j [rm [HI [Hk Hv]]]].
  eexists. split; [apply (prepare_at t pre post i r E)|].
  unfold cleaned_row. rewrite get_set_other by discriminate. rewrite get_set_same.
  split.
  - rewrite E in HI.
    change (pre ++ (i, r) :: post) with (pre ++ [(i, r)] ++ post) in HI.
    rewrite app_assoc in HI. apply in_app_or in HI. destruct HI as [HI|HI].
    + now rewrite (forward_pop_valid pre i j r rm HI Hk Hv), (forward_pop_valid pre i j r rm HI Hk Hv).
    + destruct (isna (forward_pop pre r)) eqn:Ef; [|exact Ef].
      now apply (later_pop_valid _ post j r rm).
  - intros pre1 j' rm' mid E' Hk' Hv' Hmid.
    rewrite (forward_pop_last_known pre pre1 mid i j' r rm' E' Hk' Hv' Hmid).
    now rewrite Hv'.
Qed.

Lemma prepare_pop_filled_witness :
  retained scenario2 =
  [(0, observation "B" 1964 (Num 4) (Num 61) NaN (Str "b0"));
   (1, observation "B" 1965 (Num 4) (Num 62) (Num 100) (Str "b1"))]
  ++ (2, observation "B" 1966 (Num 4) (Num 63) NaN (Str "b2")) :: [] /\
  exists r', nth_error (prepare scenario2) 2 = Some (2, r') /\
             isna (get pop r') = false /\
             get pop r' = Num 100.
Proof.
  split; [reflexivity|].
  destruct (prepare_pop_filled scenario2
              [(0, observation "B" 1964 (Num 4) (Num 61) NaN (Str "b0"));
               (1, observation "B" 1965 (Num 4) (Num 62) (Num 100) (Str "b1"))]
              [] 2 (observation "B" 1966 (Num 4) (Num 63) NaN (Str "b2")))
    as [r' [H1 [H2 H3]]].
  - reflexivity.
  - exists 1, (observation "B" 1965 (Num 4) (Num 62) (Num 100) (Str "b1")).
    split; [right; left; reflexivity|]. split; reflexivity.
  - exists r'. split; [exact H1|]. split; [exact H2|].
    apply (H3 [(0, observation "B" 1964 (Num 4) (Num 61) NaN (Str "b0"))] 1
              (observation "B" 1965 (Num 4) (Num 62) (Num 100) (Str "b1"))
              [(2, observation "B" 1966 (Num 4) (Num 63) NaN (Str "b2"))]);
      try reflexivity.
    intros p rp [HI|[]] _. inversion HI. reflexivity.
Defined.

(** C2 as the specification words it fails: with the rows of a Country out
    of Year order, the 1964 record takes the [pop] of the row before it
    (300, of 1966), where the nearest value by Year is 200 (of 1965). *)
Lemma prepare_pop_not_nearest_by_year :
  nth_error (prepare unsorted_years) 1 =
    Some (1, observation "A" 1964 (Num 3) (Num 60) (Num 300) (Str "a1")) /\
  spec_fill_pop unsorted_years 1 (observation "A" 1964 (Num 3) (Num 60) NaN (Str "a1")) =
    Num 200 /\
  get pop (observation "A" 1964 (Num 3) (Num 60) (Num 300) (Str "a1")) <>
  spec_fill_pop unsorted_years 1 (observation "A" 1964 (Num 3) (Num 60) NaN (Str "a1")).
Proof.
  split; [reflexivity|]. split; [reflexivity|].
  vm_compute. intros H. discriminate H.
Qed.

(** C1 on the code: Country "A" has no [pop] in any row, and after
    preparation both of its records carry the 100 of Country "B", which
    the backward fill, run on the whole column, brings up. *)
Lemma prepare_fills_from_other_country :
  map (get pop) (filter (fun r => cell_eqb (get Country r) (Str "A")) no_pop_then_other) =
    [NaN; NaN] /\
  prepare no_pop_then_other =
    [(0, observation "A" 1964 (Num 5) (Num 50) (Num 100) (Str "a0"));
     (1, observation "A" 1965 (Num 5) (Num 51) (Num 100) (Str "a1"));
     (2, observation "B" 1964 (Num 4) (Num 61) (Num 100) (Str "b0"))].
Proof. split; reflexivity. Qed.

(** The same backward fill in a group that has a [pop]: the first record
    of "B" takes the 100 forward-filled into the "A" row after it, not the
    50 of its own Country. *)
Example prepare_interleaved :
  map (fun ir => (get Country (snd ir), get pop (snd ir))) (prepare interleaved) =
  [(Str "A", Num 100); (Str "B", Num 100); (Str "A", Num 100); (Str "B", Num 50)].
Proof. reflexivity. Qed.

(** ** The year selection *)

Lemma filter_tagged {A B : Type} (g : A -> B) (p : A -> bool) (l : list A) :
  map fst (filter (fun q => snd (snd q)) (map (fun x => (x, (g x, p x))) l)) = filter p l.
Proof.
  induction l as [|x l IH]; [reflexivity|].
  simpl. destruct (p x); simpl; now rewrite IH.
Qed.

Lemma filter_none {A : Type} (p : A -> bool) (l : list A) :
  (forall x, In x l -> p x = false) -> filter p l = [].
Proof.
  induction l as [|x l IH]; intros H; [reflexivity|].
  cbn [filter]. rewrite (H x (or_introl eq_refl)). apply IH.
  intros y Hy. apply H. now right.
Qed.

Lemma getitem_mask_filter (v : cell) (df : DataFrame) :
  getitem_mask (eq_scalar (col Year df) v) df =
  filter (fun ir => cell_eqb (get Year (snd ir)) v) df.
Proof.
  unfold getitem_mask, eq_scalar, col. rewrite map_map, combine_map_self.
  apply (filter_tagged fst (fun ir => cell_eqb (get Year (snd ir)) v)).
Qed.

Lemma records_to_dict_list (df : DataFrame) : records (to_dict_list df) = map snd df.
Proof.
  unfold records, to_dict_list, columns, lookup_column. cbn [map find fst snd].
  induction df as [|[i [a b c d e f g]] df IH]; [reflexivity|].
  cbn [col map zip_rows fst snd get c_Country c_Region c_Year c_Fertility c_lifeExp c_pop c_ID].
  f_equal. exact IH.
Qed.

Lemma lookup_column_to_dict_list (c : column) (df : DataFrame) :
  lookup_column c (to_dict_list df) = map (fun ir => get c (snd ir)) df.
Proof.
  unfold to_dict_list, columns, lookup_column, col.
  destruct c; cbn [map find fst snd]; now rewrite map_map.
Qed.

(** C3: the callback puts in [source.data] exactly the records of the
    dataset whose Year equals the slider's year, in the dataset's order,
    and sets the title to "Life Expectancy vs Fertility in " followed by
    the year; when no record matches, every column is empty and the title
    is set all the same. *)
Theorem update_plot_selects_year (dataset : DataFrame) (year : Z)
    (old_source : list (column * list cell)) (old_title : string) :
  let s' := update_plot (mkSession year dataset old_source old_title) in
  let view := filter (year_is year) dataset in
  source_data s' = to_dict_list view /\
  records (source_data s') = map snd view /\
  (forall c, lookup_column c (source_data s') = map (fun ir => get c (snd ir)) view) /\
  title_text s' = ("Life Expectancy vs Fertility in " ++ format_int year)%string /\
  ((forall ir, In ir dataset -> year_is year ir = false) ->
   records (source_data s') = [] /\
   forall c, lookup_column c (source_data s') = []).
Proof.
  intros s' view.
  assert (E : source_data s' = to_dict_list view).
  { unfold s', update_plot. cbn [source_data slider_value data].
    now rewrite getitem_mask_filter. }
  rewrite E. split; [reflexivity|]. split; [apply records_to_dict_list|].
  split; [intros c; apply lookup_column_to_dict_list|]. split; [reflexivity|].
  intros H.
  assert (V : view = []).
  { unfold view. apply filter_none. exact H. }
  rewrite V. split; [reflexivity|]. intros c. now rewrite lookup_column_to_dict_list.
Qed.

(** Scenario 4: no row of 1964 in the dataset. *)
Example update_plot_scenario4 :
  let s' := update_plot (mkSession 1964 (filter (fun ir => negb (year_is 1964 ir))
                                                (prepare scenario3 ++ prepare scenario1)) [] "") in
  records (source_data s') = [] /\
  title_text s' = "Life Expectancy vs Fertility in 1964".
Proof. split; reflexivity. Qed.

(** C7: what the callback shows depends on the dataset and the year only,
    so two calls with the same dataset and year show the same records and
    title; and the call leaves the dataset and the slider as they were. *)
Theorem update_plot_deterministic (dataset : DataFrame) (year : Z)
    (source1 source2 : list (column * list cell)) (title1 title2 : string) :
  let s1 := update_plot (mkSession year dataset source1 title1) in
  let s2 := update_plot (mkSession year dataset source2 title2) in
  source_data s1 = source_data s2 /\
  title_text s1 = title_text s2 /\
  data s1 = dataset /\
  slider_value s1 = year /\
  update_plot s1 = s1.
Proof. repeat split. Qed.

(** The title names the year: two years with the same text are the same
    year. *)
Lemma format_int_inj (a b : Z) : format_int a = format_int b -> a = b.
Proof.
  unfold format_int. intros H.
  assert (N : forall z, NilZero.int_of_string (NilZero.string_of_int (Z.to_int z)) =
                        Some (Z.to_int z)).
  { intros z. apply NilZero.isi.
    - destruct z as [|p|p]; simpl; try discriminate.
      intros E. inversion E as [E']. now apply DecimalPos.Unsigned.to_uint_nonnil in E'.
    - destruct z as [|p|p]; simpl; try discriminate.
      intros E. inversion E as [E']. now apply DecimalPos.Unsigned.to_uint_nonnil in E'. }
  pose proof (N a) as Ha. rewrite H, N in Ha. inversion Ha as [Hab].
  rewrite <- (DecimalZ.of_to a), <- (DecimalZ.of_to b). now rewrite Hab.
Qed.

Example format_int_1964 : format_int 1964 = "1964".
Proof. reflexivity. Qed.

(** ** Reading the source *)

Lemma column_eqb_eq (a b : column) : column_eqb a b = true <-> a = b.
Proof. destruct a, b; cbn; split; intros H; try reflexivity; discriminate. Qed.

Lemma has_column_In (c : column) (present : list column) :
  has_column c present = true <-> In c present.
Proof.
  unfold has_column. rewrite existsb_exists. split.
  - intros [x [Hx E]]. apply column_eqb_eq in E. now subst.
  - intros H. exists c. split; [exact H | now apply column_eqb_eq].
Qed.

Lemma in_missing_columns (subset present : list column) (c : column) :
  In c (missing_columns subset present) <-> In c subset /\ ~ In c present.
Proof.
  unfold missing_columns. rewrite filter_In. split; intros [H1 H2]; split; auto.
  - intros H. apply has_column_In in H. rewrite H in H2. discriminate.
  - destruct (has_column c present) eqn:E; [|reflexivity].
    apply has_column_In in E. contradiction.
Qed.

(** One statement that reads columns either passes, all of them there, or
    raises [KeyError] with the ones that are not. *)
Lemma require_cases (subset : list column) (df : Frame) :
  (require subset df = inr tt /\ forall c, In c subset -> In c (frame_columns df)) \/
  (exists keys, require subset df = inl (KeyError keys) /\ keys <> [] /\
                forall k, In k keys -> In k subset /\ ~ In k (frame_columns df)).
Proof.
  unfold require.
  destruct (missing_columns subset (frame_columns df)) as [|k keys] eqn:E.
  - left. split; [reflexivity|]. intros c Hc.
    destruct (has_column c (frame_columns df)) eqn:Hh; [now apply has_column_In|].
    assert (Hm : In c (missing_columns subset (frame_columns df))).
    { apply in_missing_columns. split; [exact Hc|]. intros H.
      apply has_column_In in H. congruence. }
    rewrite E in Hm. contradiction.
  - right. exists (k :: keys). split; [reflexivity|]. split; [discriminate|].
    intros c Hc. apply in_missing_columns. now rewrite E.
Qed.

(** The case of a statement that raised: its keys are columns [load_data]
    reads and the frame lacks. *)
Ltac raised_keys keys Hn Hk :=
  right; exists keys; split; [reflexivity|]; split; [exact Hn|];
  let k := fresh "k" in
  let Hin := fresh "Hin" in
  intros k Hin; destruct (Hk k Hin) as [? ?]; split; [|assumption];
  unfold needed; cbn [In] in *; tauto.

(** Lines 18 to 23 on the frame read: the cleaned frame when the columns
    read are there, a [KeyError] otherwise. *)
Lemma cleaning_cases (df : Frame) :
  let result :=
    bind (require [lifeExp; Fertility] df) (fun _ =>
    bind (require [Country] df) (fun _ =>
    bind (require [pop] df) (fun _ =>
    bind (require [ID] df) (fun _ =>
    inr (mkFrame (frame_columns df) (clean (frame_rows df))))))) in
  ((forall c, In c needed -> In c (frame_columns df)) /\
   result = inr (mkFrame (frame_columns df) (clean (frame_rows df)))) \/
  (exists keys, result = inl (KeyError keys) /\ keys <> [] /\
                forall k, In k keys -> In k needed /\ ~ In k (frame_columns df)).
Proof.
  cbv zeta.
  destruct (require_cases [lifeExp; Fertility] df) as [[E1 H1]|[keys [E [Hn Hk]]]];
    [rewrite E1 | rewrite E]; cbn [bind]; [|raised_keys keys Hn Hk].
  destruct (require_cases [Country] df) as [[E2 H2]|[keys [E [Hn Hk]]]];
    [rewrite E2 | rewrite E]; cbn [bind]; [|raised_keys keys Hn Hk].
  destruct (require_cases [pop] df) as [[E3 H3]|[keys [E [Hn Hk]]]];
    [rewrite E3 | rewrite E]; cbn [bind]; [|raised_keys keys Hn Hk].
  destruct (require_cases [ID] df) as [[E4 H4]|[keys [E [Hn Hk]]]];
    [rewrite E4 | rewrite E]; cbn [bind]; [|raised_keys keys Hn Hk].
  left. split; [|reflexivity].
  intros c [<-|[<-|[<-|[<-|[<-|[]]]]]].
  - apply H1. now left.
  - apply H1. right. now left.
  - apply H2. now left.
  - apply H3. now left.
  - apply H4. now left.
Qed.

Lemma load_data_parsed (parse_csv : string -> DataLoadError + Table)
    (fs : filesystem) (filepath text : string) (t : Table) :
  fs filepath = Some text -> parse_csv text = inr t ->
  let df := mkFrame (table_columns t) (RangeIndex (table_rows t)) in
  read_csv parse_csv filepath fs = inr df /\
  load_data parse_csv filepath fs =
    bind (require [lifeExp; Fertility] df) (fun _ =>
    bind (require [Country] df) (fun _ =>
    bind (require [pop] df) (fun _ =>
    bind (require [ID] df) (fun _ =>
    inr (mkFrame (frame_columns df) (clean (frame_rows df))))))).
Proof.
  intros Hf Hp df. unfold load_data, read_csv. rewrite Hf, Hp. split; reflexivity.
Qed.

(** [load_data] returns a dataset exactly for a file that exists and
    parses to a table with the columns it reads, and the dataset is
    [prepare] of its rows. *)
Lemma load_data_returns (parse_csv : string -> DataLoadError + Table)
    (fs : filesystem) (filepath : string) (dataset : Frame) :
  load_data parse_csv filepath fs = inr dataset <->
  exists text t, fs filepath = Some text /\ parse_csv text = inr t /\
                 (forall c, In c needed -> In c (table_columns t)) /\
                 dataset = mkFrame (table_columns t) (prepare (table_rows t)).
Proof.
  split.
  - intros H. destruct (fs filepath) as [text|] eqn:Hf;
      [|unfold load_data, read_csv in H; rewrite Hf in H; discriminate].
    destruct (parse_csv text) as [e|t] eqn:Hp;
      [unfold load_data, read_csv in H; rewrite Hf, Hp in H; discriminate|].
    destruct (load_data_parsed parse_csv fs filepath text t Hf Hp) as [_ E].
    rewrite E in H. clear E.
    destruct (cleaning_cases (mkFrame (table_columns t) (RangeIndex (table_rows t))))
      as [[Hc E]|[keys [E _]]]; cbv zeta in E; rewrite E in H; [|discriminate].
    inversion H. exists text, t. auto.
  - intros [text [t [Hf [Hp [Hc ->]]]]].
    destruct (load_data_parsed parse_csv fs filepath text t Hf Hp) as [_ E].
    rewrite E. clear E.
    destruct (cleaning_cases (mkFrame (table_columns t) (RangeIndex (table_rows t))))
      as [[_ E]|[keys [_ [Hn Hk]]]]; [exact E|].
    exfalso. destruct keys as [|k keys]; [congruence|].
    destruct (Hk k (or_introl eq_refl)) as [Hk1 Hk2]. apply Hk2, Hc, Hk1.
Qed.

(** C6, as the code has it: [load_data] fails when [read_csv] does, with
    the exception [read_csv] raised, a missing file being one such case,
    and when the table read lacks one of the columns lifeExp, Fertility,
    Country, pop and ID, with a [KeyError] for columns it lacks; it fails
    in no other case and never gives a dataset when it fails.  A table with
    those columns is always prepared, and a row whose Fertility is text
    that is no number is kept with that text. *)
Theorem load_data_fails_on_read_or_column (parse_csv : string -> DataLoadError + Table)
    (fs : filesystem) (filepath : string) :
  (fs filepath = None -> load_data parse_csv filepath fs = inl FileNotFoundError) /\
  (forall e, read_csv parse_csv filepath fs = inl e ->
             load_data parse_csv filepath fs = inl e) /\
  (forall df c, read_csv parse_csv filepath fs = inr df ->
                In c needed -> ~ In c (frame_columns df) ->
                exists keys, load_data parse_csv filepath fs = inl (KeyError keys) /\
                             keys <> [] /\
                             forall k, In k keys -> In k needed /\ ~ In k (frame_columns df)) /\
  (forall text t, fs filepath = Some text -> parse_csv text = inr t ->
                  (forall c, In c needed -> In c (table_columns t)) ->
                  load_data parse_csv filepath fs =
                  inr (mkFrame (table_columns t) (prepare (table_rows t)))) /\
  ((exists e, load_data parse_csv filepath fs = inl e) <->
   (exists e, read_csv parse_csv filepath fs = inl e) \/
   (exists df c, read_csv parse_csv filepath fs = inr df /\
                 In c needed /\ ~ In c (frame_columns df))) /\
  (forall rows i r s, nth_error rows i = Some r ->
                      get Fertility r = Str s -> isna (get lifeExp r) = false ->
                      exists r', In (i, r') (prepare rows) /\ get Fertility r' = Str s).
Proof.
  assert (Fail : forall df c, read_csv parse_csv filepath fs = inr df ->
                 In c needed -> ~ In c (frame_columns df) ->
                 exists keys, load_data parse_csv filepath fs = inl (KeyError keys) /\
                              keys <> [] /\
                              forall k, In k keys -> In k needed /\ ~ In k (frame_columns df)).
  { intros df c Hr Hc Hn. unfold load_data. rewrite Hr. cbn [bind].
    destruct (cleaning_cases df) as [[Hall _]|[keys [E H]]].
    - exfalso. apply Hn, Hall, Hc.
    - exists keys. split; [exact E | exact H]. }
  assert (Pass : forall e, read_csv parse_csv filepath fs = inl e ->
                           load_data parse_csv filepath fs = inl e).
  { intros e Hr. unfold load_data. rewrite Hr. reflexivity. }
  split; [|split; [exact Pass|split; [exact Fail|split; [|split]]]].
  - intros H. unfold load_data, read_csv. now rewrite H.
  - intros text t Hf Hp Hc. apply load_data_returns. exists text, t. auto.
  - split.
    + intros [e He]. destruct (read_csv parse_csv filepath fs) as [e'|df] eqn:Hr;
        [left; now exists e'|]. right.
      unfold load_data in He. rewrite Hr in He. cbn [bind] in He.
      destruct (cleaning_cases df) as [[_ E]|[keys [_ [Hn Hk]]]];
        [cbv zeta in E; rewrite E in He; discriminate|].
      destruct keys as [|k keys]; [congruence|].
      exists df, k. split; [reflexivity|]. apply Hk. now left.
    + intros [[e He]|[df [c [Hr [Hc Hn]]]]].
      * exists e. now apply Pass.
      * destruct (Fail df c Hr Hc Hn) as [keys [E _]]. now exists (KeyError keys).
  - intros rows i r s Hr HF HL.
    assert (HI : In i (index (prepare rows))).
    { rewrite index_prepare. unfold index. apply in_map_iff. exists (i, r).
      split; [reflexivity|]. apply in_retained. rewrite HF. auto. }
    unfold index in HI. apply in_map_iff in HI. destruct HI as [[j r'] [E HI]].
    simpl in E. subst j. exists r'. split; [exact HI|].
    destruct (in_prepare rows i r' HI) as [r0 [v [H0 ->]]].
    apply in_retained in H0. destruct H0 as [H0 _].
    rewrite Hr in H0. inversion H0; subst. exact HF.
Qed.

(** A file without the lifeExp and Fertility columns, one without pop, and
    one with all seven. *)
Example load_data_missing_columns :
  let fs := fun _ : string => Some "csv" in
  load_data (fun _ => inr (without [lifeExp; Fertility] scenario2)) "gapminder.csv" fs =
    inl (KeyError [lifeExp; Fertility]) /\
  load_data (fun _ => inr (without [pop] scenario2)) "gapminder.csv" fs =
    inl (KeyError [pop]) /\
  load_data (fun _ => inr (without [] scenario2)) "gapminder.csv" fs =
    inr (mkFrame columns (prepare scenario2)).
Proof. repeat split. Qed.

(** C6 as the specification words it fails: the row with Fertility "abc"
    is not dropped as a row without Fertility would be. *)
Lemma prepare_keeps_malformed_row :
  prepare malformed = [(0, observation "A" 1964 (Str "abc") (Num 60) (Num 10) (Str "a0"))] /\
  prepare malformed <> [].
Proof. split; [reflexivity | discriminate]. Qed.

(** C8: [load_data] depends on the source's contents only: on two file
    systems that hold the same file at [filepath] it returns the same
    dataset, or fails alike. *)
Theorem load_data_deterministic (parse_csv : string -> DataLoadError + Table)
    (fs1 fs2 : filesystem) (filepath : string) :
  fs1 filepath = fs2 filepath ->
  load_data parse_csv filepath fs1 = load_data parse_csv filepath fs2.
Proof. intros H. unfold load_data, read_csv. now rewrite H. Qed.

Lemma load_data_deterministic_witness :
  let parse := fun _ : string => inr (mkTable columns scenario2) in
  let fs1 := fun p : string => if String.eqb p "gapminder.csv" then Some "csv" else None in
  let fs2 := fun _ : string => Some "csv" in
  fs1 "gapminder.csv" = fs2 "gapminder.csv" /\
  load_data parse "gapminder.csv" fs1 = load_data parse "gapminder.csv" fs2.
Proof.
  intros parse fs1 fs2. split; [reflexivity|].
  apply (load_data_deterministic parse fs1 fs2 "gapminder.csv"). reflexivity.
Defined.

(** * Further properties of [load_data] *)

(** ** The backward fill over the whole column *)

Lemma first_value_bfill (s : Series) : first_value (bfill s) = first_valid s.
Proof.
  induction s as [|[i v] s IH]; [reflexivity|].
  rewrite bfill_cons. unfold first_valid. cbn [first_value find snd].
  destruct (isna v); [exact IH | reflexivity].
Qed.

Lemma nth_error_combine {A B : Type} (l : list A) (s : list B) (n : nat) (a : A) (b : B) :
  nth_error l n = Some a -> nth_error s n = Some b ->
  nth_error (combine l s) n = Some (a, b).
Proof.
  revert l s. induction n as [|n IH]; intros [|x l] [|y s] Ha Hb; simpl in *;
    try discriminate.
  - inversion Ha; inversion Hb; reflexivity.
  - now apply IH.
Qed.

Lemma nth_error_index {A : Type} (l : list (nat * A)) (n i : nat) :
  nth_error (index l) n = Some i -> exists a, nth_error l n = Some (i, a).
Proof.
  unfold index. revert l. induction n as [|n IH]; intros [|[j a] l] H; simpl in *;
    try discriminate.
  - inversion H. now exists a.
  - now apply IH.
Qed.

Lemma nth_error_middle {A : Type} (l1 l2 : list A) (x : A) :
  nth_error (l1 ++ x :: l2) (List.length l1) = Some x.
Proof. rewrite nth_error_app2, Nat.sub_diag by lia. reflexivity. Qed.

(** After [load_data] the [pop] of a record is its forward-filled value
    when there is one, and otherwise the first forward-filled value found
    further down the column, in the rows of any Country; with none there,
    it stays missing. *)
Theorem prepare_pop_backfilled (t : list row) (s1 s2 : Series) (i : nat) (v : cell) :
  groupby_ffill Country pop (retained t) = s1 ++ (i, v) :: s2 ->
  exists r r',
    nth_error (retained t) (List.length s1) = Some (i, r) /\
    nth_error (prepare t) (List.length s1) = Some (i, r') /\
    get pop r' = (if isna v then first_valid s2 else v) /\
    untouched r' = untouched r.
Proof.
  intros E.
  assert (Hi : nth_error (index (retained t)) (List.length s1) = Some i).
  { unfold groupby_ffill in E.
    rewrite <- (index_groupby_ffill_from Country pop [] (retained t)), E.
    unfold index. rewrite map_app. cbn [map fst].
    rewrite <- (length_map fst s1). apply nth_error_middle. }
  destruct (nth_error_index _ _ _ Hi) as [r Hr].
  exists r, (cleaned_row (if isna v then first_valid s2 else v) r).
  split; [exact Hr|]. split; [|split].
  - rewrite prepare_rows, E.
    destruct (bfill_app s1 ((i, v) :: s2)) as [s1' [L B]].
    rewrite B, bfill_cons, first_value_bfill.
    rewrite (map_nth_error _ _ _
               (d := ((i, r), (i, if isna v then first_valid s2 else v))));
      [reflexivity|].
    apply nth_error_combine; [exact Hr|].
    rewrite <- L. apply nth_error_middle.
  - unfold cleaned_row. rewrite get_set_other by discriminate. apply get_set_same.
  - apply untouched_cleaned_row.
Qed.

Lemma prepare_pop_backfilled_witness :
  groupby_ffill Country pop (retained interleaved) =
    [(0, Num 100)] ++ (1, NaN) :: [(2, Num 100); (3, Num 50)] /\
  exists r r',
    nth_error (retained interleaved) 1 = Some (1, r) /\
    nth_error (prepare interleaved) 1 = Some (1, r') /\
    get pop r' = Num 100 /\
    untouched r' = untouched r.
Proof.
  split; [reflexivity|].
  apply (prepare_pop_backfilled interleaved [(0, Num 100)] [(2, Num 100); (3, Num 50)] 1 NaN).
  reflexivity.
Defined.

Lemma col_pop_prepare (t : list row) :
  col pop (prepare t) = bfill (groupby_ffill Country pop (retained t)).
Proof.
  rewrite prepare_rows. unfold col. rewrite map_map.
  assert (H : index (bfill (groupby_ffill Country pop (retained t))) = index (retained t)).
  { unfold groupby_ffill. now rewrite index_bfill, index_groupby_ffill_from. }
  revert H. generalize (bfill (groupby_ffill Country pop (retained t))).
  induction (retained t) as [|[i r] l IH]; intros [|[j v] s] H; try discriminate;
    [reflexivity|].
  unfold index in H. cbn [map fst] in H. inversion H; subst.
  cbn [combine map fst snd]. f_equal. now apply IH.
Qed.

Lemma bfill_head_missing (s : Series) :
  isna (first_value (bfill s)) = true ->
  Forall (fun iv => isna (snd iv) = true) (bfill s).
Proof.
  induction s as [|[i v] s IH]; intros H; [constructor|].
  rewrite bfill_cons in *. cbn [first_value] in H.
  destruct (isna v) eqn:E.
  - constructor; [exact H | now apply IH].
  - congruence.
Qed.

Lemma bfill_missing_suffix (s a b : Series) (i : nat) (v : cell) :
  bfill s = a ++ (i, v) :: b -> isna v = true ->
  Forall (fun iv => isna (snd iv) = true) b.
Proof.
  revert a. induction s as [|[j w] s IH]; intros a E Hv.
  - destruct a; discriminate.
  - rewrite bfill_cons in E. destruct a as [|x a].
    + cbn [app] in E. inversion E; subst. apply bfill_head_missing.
      destruct (isna w) eqn:Ew; [exact Hv | congruence].
    + cbn [app] in E. inversion E. now apply (IH a).
Qed.

(** The records left without a [pop] by [load_data] are the last ones of
    the dataset: after a record whose [pop] is missing, every record's
    [pop] is missing. *)
Theorem prepare_missing_pop_trailing (t : list row) (before after : DataFrame)
    (i : nat) (r' : row) :
  prepare t = before ++ (i, r') :: after ->
  isna (get pop r') = true ->
  Forall (fun jr => isna (get pop (snd jr)) = true) after.
Proof.
  intros E Hv.
  pose proof (col_pop_prepare t) as C. rewrite E in C.
  unfold col in C. rewrite map_app in C. cbn [map fst snd] in C.
  symmetry in C. apply bfill_missing_suffix in C; [|exact Hv].
  apply Forall_forall. intros [j rj] Hj.
  rewrite Forall_forall in C.
  apply (C (j, get pop rj)). apply in_map_iff. exists (j, rj). auto.
Qed.

Lemma prepare_missing_pop_trailing_witness :
  prepare (scenario2 ++ [observation "D" 1964 (Num 1) (Num 1) NaN (Str "d0");
                         observation "E" 1964 (Num 1) (Num 1) NaN (Str "e0")]) =
    firstn 3 (prepare scenario2)
    ++ (3, observation "D" 1964 (Num 1) (Num 1) NaN (Str "d0"))
    :: [(4, observation "E" 1964 (Num 1) (Num 1) NaN (Str "e0"))] /\
  isna (get pop (observation "D" 1964 (Num 1) (Num 1) NaN (Str "d0"))) = true /\
  Forall (fun jr => isna (get pop (snd jr)) = true)
         [(4, observation "E" 1964 (Num 1) (Num 1) NaN (Str "e0"))].
Proof.
  split; [reflexivity|]. split; [reflexivity|].
  apply (prepare_missing_pop_trailing
           (scenario2 ++ [observation "D" 1964 (Num 1) (Num 1) NaN (Str "d0");
                          observation "E" 1964 (Num 1) (Num 1) NaN (Str "e0")])
           (firstn 3 (prepare scenario2)) _ 3
           (observation "D" 1964 (Num 1) (Num 1) NaN (Str "d0")));
    reflexivity.
Defined.

(** ** A Country whose rows stand together *)

Lemma last_valid_in_group_absent (k : cell) (seen : list (cell * cell)) :
  (forall kv, In kv seen -> cell_eqb (fst kv) k = false) ->
  last_valid_in_group k seen = NaN.
Proof.
  intros H. unfold last_valid_in_group.
  rewrite <- (app_nil_r seen), find_skip; [reflexivity|].
  intros kv Hkv. now rewrite (H kv Hkv).
Qed.

Lemma groupby_ffill_from_one_group (by_ c : column) (k : cell) (seen : list (cell * cell))
    (g : DataFrame) :
  (forall j rj, In (j, rj) g -> cell_eqb (get by_ rj) k = true) ->
  groupby_ffill_from by_ c seen g = ffill_from (last_valid_in_group k seen) (col c g).
Proof.
  revert seen. induction g as [|[i r] g IH]; intros seen H; [reflexivity|].
  rewrite groupby_ffill_from_cons. cbn [col map fst snd ffill_from].
  pose proof (H i r (or_introl eq_refl)) as Hk.
  destruct (cell_eqb_isna _ _ Hk) as [Hn _]. rewrite Hn.
  rewrite (last_valid_in_group_congr _ _ seen Hk).
  f_equal. fold (col c g). rewrite IH by (intros j rj Hj; apply (H j rj); now right).
  f_equal. unfold last_valid_in_group at 1. cbn [find key_value fst snd]. rewrite Hk.
  destruct (isna (get c r)); reflexivity.
Qed.

Lemma ffill_from_nonempty (last : cell) (s : Series) : s <> [] -> ffill_from last s <> [].
Proof. destruct s as [|[i v] s]; [congruence | discriminate]. Qed.

Lemma ffill_from_ends_valid (last : cell) (s : Series) :
  s <> [] ->
  isna last = false \/ (exists j w, In (j, w) s /\ isna w = false) ->
  isna (snd (List.last (ffill_from last s) (0, NaN))) = false.
Proof.
  revert last. induction s as [|[j w] s IH]; intros last Hne H; [congruence|].
  cbn [ffill_from].
  assert (Hw : s <> [] -> isna (if isna w then last else w) = false \/
                          (exists j' w', In (j', w') s /\ isna w' = false)).
  { intros _. destruct (isna w) eqn:Ew; [|now left].
    destruct H as [H|[j' [w' [[HI|HI] Hv]]]]; [now left | | right; eauto].
    inversion HI; subst. congruence. }
  destruct s as [|x s].
  - cbn [ffill_from List.last snd].
    destruct (isna w) eqn:Ew; [|exact Ew].
    destruct H as [H|[j' [w' [[HI|[]] Hv]]]]; [exact H|].
    inversion HI; subst. congruence.
  - specialize (IH (if isna w then last else w) ltac:(discriminate) (Hw ltac:(discriminate))).
    destruct (ffill_from (if isna w then last else w) (x :: s)) as [|y l] eqn:E.
    + exfalso. revert E. apply ffill_from_nonempty. discriminate.
    + exact IH.
Qed.

Lemma bfill_nonempty (s : Series) : s <> [] -> bfill s <> [].
Proof. destruct s as [|[i v] s]; [congruence | discriminate]. Qed.

Lemma bfill_app_valid_end (s1 s2 : Series) :
  s1 <> [] ->
  isna (snd (List.last s1 (0, NaN))) = false ->
  bfill (s1 ++ s2) = bfill s1 ++ bfill s2.
Proof.
  induction s1 as [|[i v] s1 IH]; intros Hne H; [congruence|].
  destruct s1 as [|y s1].
  - cbn [List.last snd] in H. cbn [app]. rewrite !bfill_cons, H. reflexivity.
  - change (List.last ((i, v) :: y :: s1) (0, NaN)) with (List.last (y :: s1) (0, NaN)) in H.
    specialize (IH ltac:(discriminate) H).
    change (((i, v) :: y :: s1) ++ s2) with ((i, v) :: ((y :: s1) ++ s2)).
    rewrite (bfill_cons i v ((y :: s1) ++ s2)), IH, (bfill_cons i v (y :: s1)).
    destruct (bfill (y :: s1)) as [|z l] eqn:E.
    + exfalso. revert E. apply bfill_nonempty. discriminate.
    + reflexivity.
Qed.

Lemma col_pop_cleaned (g : DataFrame) (s : Series) :
  index s = index g ->
  col pop (map (fun p => (fst (fst p), cleaned_row (snd (snd p)) (snd (fst p))))
               (combine g s)) = s.
Proof.
  revert s. induction g as [|[i r] g IH]; intros [|[j v] s] H; try discriminate;
    [reflexivity|].
  unfold index in H. cbn [map fst] in H. inversion H; subst.
  cbn [combine map col fst snd]. f_equal. now apply IH.
Qed.

(** Where the rows of a Country stand together, none of that Country
    before them, and one of them has a [pop], [load_data] fills their
    [pop] from that Country alone: forward, then backward. *)
Theorem prepare_pop_contiguous_group (t : list row) (before g after : DataFrame) (k : cell) :
  retained t = before ++ g ++ after ->
  (forall j rj, In (j, rj) before -> cell_eqb (get Country rj) k = false) ->
  (forall j rj, In (j, rj) g -> cell_eqb (get Country rj) k = true) ->
  (exists j rj, In (j, rj) g /\ isna (get pop rj) = false) ->
  exists out_before out_g out_after,
    prepare t = out_before ++ out_g ++ out_after /\
    List.length out_before = List.length before /\
    col pop out_g = bfill (ffill (col pop g)).
Proof.
  intros E Hb Hg [j [rj [Hj Hv]]].
  assert (Gne : col pop g <> []).
  { destruct g; [contradiction | discriminate]. }
  set (F := fun p : (nat * row) * (nat * cell) =>
              (fst (fst p), cleaned_row (snd (snd p)) (snd (fst p)))).
  set (s_before := groupby_ffill_from Country pop [] before).
  set (seen := rev (map (key_value Country pop) before) ++ []).
  set (s_after := groupby_ffill_from Country pop
                    (rev (map (key_value Country pop) g) ++ seen) after).
  assert (S : groupby_ffill Country pop (retained t) =
              s_before ++ ffill (col pop g) ++ s_after).
  { unfold groupby_ffill. rewrite E, !groupby_ffill_from_app.
    fold s_before seen s_after. f_equal. f_equal.
    rewrite (groupby_ffill_from_one_group Country pop k seen g Hg).
    rewrite last_valid_in_group_absent; [reflexivity|].
    intros kv Hkv. unfold seen in Hkv. rewrite app_nil_r in Hkv.
    apply in_rev, in_map_iff in Hkv. destruct Hkv as [[p rp] [<- Hp]].
    apply (Hb p rp Hp). }
  destruct (bfill_app s_before (ffill (col pop g) ++ s_after)) as [s' [L B]].
  assert (V : bfill (ffill (col pop g) ++ s_after) =
              bfill (ffill (col pop g)) ++ bfill s_after).
  { apply bfill_app_valid_end.
    - now apply ffill_from_nonempty.
    - apply ffill_from_ends_valid; [exact Gne|]. right.
      exists j, (get pop rj). split; [|exact Hv].
      unfold col. apply in_map_iff. exists (j, rj). auto. }
  assert (Lb : List.length before = List.length s').
  { rewrite L. unfold s_before. now rewrite length_groupby_ffill_from. }
  assert (Ig : index (bfill (ffill (col pop g))) = index g).
  { unfold ffill. now rewrite index_bfill, index_ffill_from, index_col. }
  exists (map F (combine before s')),
         (map F (combine g (bfill (ffill (col pop g))))),
         (map F (combine after (bfill s_after))).
  split; [|split].
  - rewrite prepare_rows, S, B, V, E. fold F.
    rewrite (combine_app_same before (g ++ after) s' _ Lb), map_app. f_equal.
    rewrite combine_app_same, map_app; [reflexivity|].
    rewrite <- (index_length g), <- Ig. apply index_length.
  - rewrite length_map, length_combine, <- Lb. apply Nat.min_id.
  - apply col_pop_cleaned. exact Ig.
Qed.

Lemma prepare_pop_contiguous_group_witness :
  retained (firstn 2 no_pop_then_other ++ scenario2) =
    RangeIndex (firstn 2 no_pop_then_other) ++ RangeIndex_from 2 scenario2 ++ [] /\
  col pop (RangeIndex_from 2 scenario2) = [(2, NaN); (3, Num 100); (4, NaN)] /\
  exists out_before out_g out_after,
    prepare (firstn 2 no_pop_then_other ++ scenario2) = out_before ++ out_g ++ out_after /\
    List.length out_before = 2 /\
    col pop out_g = [(2, Num 100); (3, Num 100); (4, Num 100)].
Proof.
  split; [reflexivity|]. split; [reflexivity|].
  apply (prepare_pop_contiguous_group (firstn 2 no_pop_then_other ++ scenario2)
           (RangeIndex (firstn 2 no_pop_then_other))
           (RangeIndex_from 2 scenario2) [] (Str "B")).
  - reflexivity.
  - intros j rj [H|[H|[]]]; inversion H; reflexivity.
  - intros j rj [H|[H|[H|[]]]]; inversion H; reflexivity.
  - exists 3, (observation "B" 1965 (Num 4) (Num 62) (Num 100) (Str "b1")).
    split; [right; left; reflexivity | reflexivity].
Defined.

(** ** Where the values of [pop] come from *)

Lemma bfill_values (s : Series) (k : nat) (v : cell) :
  In (k, v) (bfill s) -> isna v = false -> exists k', In (k', v) s.
Proof.
  induction s as [|[i w] s IH]; intros HI Hv; [contradiction|].
  rewrite bfill_cons in HI. destruct HI as [HI|HI].
  - inversion HI; subst. destruct (isna w) eqn:Ew.
    + destruct (first_value_bfill_source s Hv) as [k' Hk']. exists k'. now right.
    + exists k. now left.
  - destruct (IH HI Hv) as [k' Hk']. exists k'. now right.
Qed.

Lemma last_valid_in_group_source (k : cell) (seen : list (cell * cell)) :
  isna (last_valid_in_group k seen) = false ->
  exists kv, In kv seen /\ isna (fst kv) = false /\ snd kv = last_valid_in_group k seen.
Proof.
  unfold last_valid_in_group.
  destruct (find (fun kv => cell_eqb (fst kv) k && negb (isna (snd kv))) seen) as [kv|] eqn:E;
    [|discriminate].
  intros _. apply find_some in E. destruct E as [HI Hp].
  apply andb_prop in Hp. destruct Hp as [Hk _].
  exists kv. split; [exact HI|]. split; [|reflexivity].
  now destruct (cell_eqb_isna _ _ Hk).
Qed.

Lemma groupby_ffill_from_values (by_ c : column) (seen : list (cell * cell))
    (df : DataFrame) (k : nat) (v : cell) :
  In (k, v) (groupby_ffill_from by_ c seen df) -> isna v = false ->
  (exists j r, In (j, r) df /\ isna (get by_ r) = false /\ get c r = v) \/
  (exists kv, In kv seen /\ isna (fst kv) = false /\ snd kv = v).
Proof.
  revert seen. induction df as [|[i r] df IH]; intros seen HI Hv; [contradiction|].
  rewrite groupby_ffill_from_cons in HI. destruct HI as [HI|HI].
  - assert (Hval : v = if isna (get by_ r) then NaN
                       else if isna (get c r)
                            then last_valid_in_group (get by_ r) seen
                            else get c r) by congruence.
    clear HI. destruct (isna (get by_ r)) eqn:Ek; [subst v; discriminate|].
    destruct (isna (get c r)) eqn:Ec.
    + right. rewrite Hval in Hv.
      destruct (last_valid_in_group_source _ _ Hv) as [kv [H1 [H2 H3]]].
      exists kv. rewrite Hval. auto.
    + left. exists i, r. split; [now left|]. auto.
  - destruct (IH _ HI Hv) as [[j [rj [H1 H2]]]|[kv [[H1|H1] [H2 H3]]]].
    + left. exists j, rj. split; [now right | exact H2].
    + left. subst kv. cbn [key_value fst snd] in H2, H3.
      exists i, r. split; [now left|]. auto.
    + right. exists kv. auto.
Qed.

(** [load_data] invents no [pop]: every [pop] of the prepared dataset is
    the [pop] some retained input row had, a row with a Country. *)
Theorem prepare_pop_from_input (t : list row) (i : nat) (r' : row) :
  In (i, r') (prepare t) -> isna (get pop r') = false ->
  exists j r, nth_error t j = Some r /\
              isna (get Fertility r) = false /\ isna (get lifeExp r) = false /\
              isna (get Country r) = false /\
              get pop r = get pop r'.
Proof.
  intros HI Hv.
  assert (Hc : In (i, get pop r') (col pop (prepare t))).
  { unfold col. apply in_map_iff. exists (i, r'). auto. }
  rewrite col_pop_prepare in Hc.
  destruct (bfill_values _ _ _ Hc Hv) as [k' Hk'].
  unfold groupby_ffill in Hk'.
  destruct (groupby_ffill_from_values _ _ _ _ _ _ Hk' Hv)
    as [[j [r [H1 [H2 H3]]]]|[kv [[] _]]].
  apply in_retained in H1. destruct H1 as [H1 [H4 H5]].
  exists j, r. auto.
Qed.

Lemma prepare_pop_from_input_witness :
  In (0, observation "A" 1964 (Num 5) (Num 50) (Num 100) (Str "a0"))
     (prepare no_pop_then_other) /\
  exists j r, nth_error no_pop_then_other j = Some r /\
              isna (get Fertility r) = false /\ isna (get lifeExp r) = false /\
              isna (get Country r) = false /\
              get pop r = Num 100.
Proof.
  split; [left; reflexivity|].
  apply (prepare_pop_from_input no_pop_then_other 0
           (observation "A" 1964 (Num 5) (Num 50) (Num 100) (Str "a0")));
    [left; reflexivity | reflexivity].
Defined.

(** [load_data] leaves a known [pop] alone: a retained row that has a
    Country and a [pop] keeps that [pop]. *)
Theorem prepare_keeps_known_pop (t : list row) (i : nat) (r : row) :
  nth_error t i = Some r ->
  isna (get Fertility r) = false -> isna (get lifeExp r) = false ->
  isna (get Country r) = false -> isna (get pop r) = false ->
  exists r', In (i, r') (prepare t) /\ get pop r' = get pop r /\
             untouched r' = untouched r.
Proof.
  intros Hr HF HL HC HP.
  assert (HI : In (i, r) (retained t)) by (apply in_retained; auto).
  apply in_split in HI. destruct HI as [pre [post E]].
  pose proof (prepare_at t pre post i r E) as H. cbv zeta in H.
  assert (Hf : forward_pop pre r = get pop r).
  { unfold forward_pop. now rewrite HC, HP. }
  rewrite Hf, HP in H.
  exists (cleaned_row (get pop r) r). split; [|split].
  - eapply nth_error_In. exact H.
  - unfold cleaned_row. rewrite get_set_other by discriminate. apply get_set_same.
  - apply untouched_cleaned_row.
Qed.

Lemma prepare_keeps_known_pop_witness :
  nth_error interleaved 3 = Some (observation "B" 1965 (Num 4) (Num 62) (Num 50) (Str "b1")) /\
  exists r', In (3, r') (prepare interleaved) /\
             get pop r' = Num 50 /\
             untouched r' = untouched (observation "B" 1965 (Num 4) (Num 62) (Num 50) (Str "b1")).
Proof.
  split; [reflexivity|].
  apply (prepare_keeps_known_pop interleaved 3
           (observation "B" 1965 (Num 4) (Num 62) (Num 50) (Str "b1")));
    reflexivity.
Defined.

(** * Further properties of the slider callback *)

Lemma records_update_plot (dataset : DataFrame) (year : Z)
    (old_source : list (column * list cell)) (old_title : string) :
  records (source_data (update_plot (mkSession year dataset old_source old_title))) =
  map snd (filter (year_is year) dataset).
Proof.
  unfold update_plot. cbn [source_data slider_value data].
  rewrite getitem_mask_filter. apply records_to_dict_list.
Qed.

Lemma shown_record_year (dataset : DataFrame) (year : Z)
    (old_source : list (column * list cell)) (old_title : string) (r : row) :
  In r (records (source_data (update_plot (mkSession year dataset old_source old_title)))) ->
  exists i, In (i, r) dataset /\ cell_eqb (get Year r) (Num (inject_Z year)) = true.
Proof.
  rewrite records_update_plot. intros H. apply in_map_iff in H.
  destruct H as [[i r0] [E H]]. cbn [snd] in E. subst r0.
  apply filter_In in H. destruct H as [H1 H2]. exists i. auto.
Qed.

Lemma append_same_prefix (p a b : string) : (p ++ a)%string = (p ++ b)%string -> a = b.
Proof.
  induction p as [|c p IH]; cbn [String.append]; intros H; [exact H|].
  inversion H. auto.
Qed.

(** The title the callback sets names its year: two calls that set the
    same title were made for the same year. *)
Theorem update_plot_title_names_year (dataset1 dataset2 : DataFrame) (year1 year2 : Z)
    (source1 source2 : list (column * list cell)) (title1 title2 : string) :
  title_text (update_plot (mkSession year1 dataset1 source1 title1)) =
  title_text (update_plot (mkSession year2 dataset2 source2 title2)) ->
  year1 = year2.
Proof.
  unfold update_plot. cbn [title_text slider_value]. intros H.
  apply format_int_inj. revert H. apply append_same_prefix.
Qed.

Lemma update_plot_title_names_year_witness :
  title_text (update_plot (mkSession 1964 (prepare scenario1) [] "")) =
  title_text (update_plot (mkSession 1964 (prepare scenario2) [] "old")) /\
  1964%Z = 1964%Z.
Proof.
  split; [reflexivity|].
  apply (update_plot_title_names_year (prepare scenario1) (prepare scenario2) 1964 1964
           [] [] "" "old").
  reflexivity.
Defined.

(** A record the callback shows has a number for its Year, the slider's
    year, and is shown for no other year. *)
Theorem update_plot_year_exclusive (dataset : DataFrame) (year : Z)
    (old_source : list (column * list cell)) (old_title : string) (r : row) :
  In r (records (source_data (update_plot (mkSession year dataset old_source old_title)))) ->
  (exists q, get Year r = Num q /\ Qeq q (inject_Z year)) /\
  (forall year2 source2 title2,
      In r (records (source_data (update_plot (mkSession year2 dataset source2 title2)))) ->
      year2 = year).
Proof.
  intros H. destruct (shown_record_year _ _ _ _ _ H) as [i [_ Hy]].
  destruct (get Year r) as [|q|s] eqn:E; cbn [cell_eqb] in Hy; try discriminate.
  apply Qeq_bool_iff in Hy. split; [now exists q|].
  intros year2 source2 title2 H2.
  destruct (shown_record_year _ _ _ _ _ H2) as [i2 [_ Hy2]].
  rewrite E in Hy2. cbn [cell_eqb] in Hy2. apply Qeq_bool_iff in Hy2.
  apply inject_Z_injective. now rewrite <- Hy, <- Hy2.
Qed.

Lemma update_plot_year_exclusive_witness :
  In (observation "B" 1965 (Num 4) (Num 62) (Num 100) (Str "b1"))
     (records (source_data (update_plot (mkSession 1965 (prepare scenario2) [] "")))) /\
  (exists q, get Year (observation "B" 1965 (Num 4) (Num 62) (Num 100) (Str "b1")) = Num q /\
             Qeq q (inject_Z 1965)) /\
  (forall year2 source2 title2,
      In (observation "B" 1965 (Num 4) (Num 62) (Num 100) (Str "b1"))
         (records (source_data (update_plot (mkSession year2 (prepare scenario2)
                                                       source2 title2)))) ->
      year2 = 1965%Z).
Proof.
  split; [left; reflexivity|].
  apply (update_plot_year_exclusive (prepare scenario2) 1965 [] "").
  left. reflexivity.
Defined.

(** On the dataset [load_data] prepared, every record the callback shows
    has its Fertility, lifeExp and ID, and is a row of the input with the
    slider's year, its Country, Region, Year, Fertility and lifeExp as
    in the input. *)
Theorem update_plot_on_prepared (t : list row) (year : Z)
    (old_source : list (column * list cell)) (old_title : string) (r : row) :
  In r (records (source_data (update_plot (mkSession year (prepare t) old_source old_title)))) ->
  isna (get Fertility r) = false /\
  isna (get lifeExp r) = false /\
  isna (get ID r) = false /\
  exists i r0, nth_error t i = Some r0 /\ untouched r = untouched r0 /\
               cell_eqb (get Year r0) (Num (inject_Z year)) = true.
Proof.
  intros H. destruct (shown_record_year _ _ _ _ _ H) as [i [HI Hy]].
  destruct (in_prepare t i r HI) as [r0 [v [Hr ->]]].
  apply in_retained in Hr. destruct Hr as [Hr [HF HL]].
  split; [exact HF|]. split; [exact HL|]. split.
  - unfold cleaned_row. rewrite get_set_same. now destruct (isna (get ID r0)) eqn:E.
  - exists i, r0. split; [exact Hr|]. split; [apply untouched_cleaned_row | exact Hy].
Qed.

Lemma update_plot_on_prepared_witness :
  In (observation "C" 1964 (Num 2) (Num 70) (Num 7) (Str "Unknown"))
     (records (source_data (update_plot (mkSession 1964 (prepare scenario3) [] "")))) /\
  isna (get ID (observation "C" 1964 (Num 2) (Num 70) (Num 7) (Str "Unknown"))) = false /\
  exists i r0, nth_error scenario3 i = Some r0 /\
               untouched (observation "C" 1964 (Num 2) (Num 70) (Num 7) (Str "Unknown")) =
               untouched r0 /\
               cell_eqb (get Year r0) (Num (inject_Z 1964)) = true.
Proof.
  split; [left; reflexivity|].
  destruct (update_plot_on_prepared scenario3 1964 [] ""
              (observation "C" 1964 (Num 2) (Num 70) (Num 7) (Str "Unknown")))
    as [_ [_ [H1 H2]]].
  - left. reflexivity.
  - split; [exact H1 | exact H2].
Defined.

(** * [make_plot] and [main] *)

Lemma cell_eqb_common (u w c : cell) :
  cell_eqb u c = true -> cell_eqb w c = true -> cell_eqb u w = true.
Proof.
  intros Hu Hw. rewrite cell_eqb_sym in Hw. exact (cell_eqb_trans u c w Hu Hw).
Qed.

Lemma at_most_two_values (l : list cell) (a b : cell) :
  ForallOrdPairs (fun x y => cell_eqb x y = false) l ->
  (forall x, In x l -> cell_eqb x a = true \/ cell_eqb x b = true) ->
  List.length l < 3.
Proof.
  intros P H. destruct l as [|x [|y [|z l]]]; cbn [List.length]; try lia.
  exfalso.
  inversion P as [|? ? Px P']; subst. inversion P' as [|? ? Py _]; subst.
  inversion Px as [|? ? Hxy Px']; subst. inversion Px' as [|? ? Hxz _]; subst.
  inversion Py as [|? ? Hyz _]; subst.
  destruct (H x ltac:(now left)) as [Hx|Hx];
    destruct (H y ltac:(right; now left)) as [Hy|Hy];
    destruct (H z ltac:(right; right; now left)) as [Hz|Hz];
    try (rewrite (cell_eqb_common _ _ _ Hx Hy) in Hxy; discriminate);
    try (rewrite (cell_eqb_common _ _ _ Hx Hz) in Hxz; discriminate);
    try (rewrite (cell_eqb_common _ _ _ Hy Hz) in Hyz; discriminate).
Qed.

Lemma dict_get_to_dict_list (c : column) (df : DataFrame) :
  dict_get c (to_dict_list df) = Some (map (fun ir => get c (snd ir)) df).
Proof.
  unfold dict_get, to_dict_list, columns, col.
  destruct c; cbn [map find fst snd column_eqb]; now rewrite map_map.
Qed.

Section PlotProperties.

Variable Category20 : nat -> option (list string).
Variable list_set : list cell -> list cell.

(** What is known of [list(set(...))]: it lists values of its argument,
    no two of them equal, and every value that is not missing has its equal
    among them. *)
Hypothesis list_set_sub : forall l x, In x (list_set l) -> In x l.
Hypothesis list_set_distinct :
  forall l, ForallOrdPairs (fun x y => cell_eqb x y = false) (list_set l).
Hypothesis list_set_cover :
  forall l x, In x l -> isna x = false ->
              exists y, In y (list_set l) /\ cell_eqb x y = true.

(** What is known of [Category20]: it has no palette of fewer than 3
    colours, and one of [n] colours for each [n] from 3 to 20. *)
Hypothesis Category20_small : forall n, n < 3 -> Category20 n = None.
Hypothesis Category20_sizes :
  forall n, 3 <= n <= 20 -> exists p, Category20 n = Some p /\ List.length p = n.

(** [make_plot] fails on a source with fewer than three Regions: when the
    Region column holds at most two different values, the palette lookup
    raises [KeyError] for their number, and no figure is made. *)
Theorem make_plot_few_regions (source : ColumnDataSource) (initial_year : Z)
    (values : list cell) (a b : cell) :
  dict_get Region (source_columns source) = Some values ->
  (forall x, In x values -> cell_eqb x a = true \/ cell_eqb x b = true) ->
  exists n, n < 3 /\
            make_plot Category20 list_set source initial_year = inl (KeyError_int n).
Proof.
  intros Hd Hv. exists (List.length (list_set values)).
  assert (L : List.length (list_set values) < 3).
  { apply (at_most_two_values _ a b); [apply list_set_distinct|].
    intros x Hx. apply Hv. now apply list_set_sub. }
  split; [exact L|].
  unfold make_plot. rewrite Hd. cbv zeta.
  assert (E : Nat.leb (List.length (list_set values)) 20 = true)
    by (apply Nat.leb_le; lia).
  rewrite E, (Category20_small _ L). reflexivity.
Qed.

Lemma list_set_three (values : list cell) (x1 x2 x3 : cell) :
  (forall x, In x values -> is_text x = true) ->
  In x1 values -> In x2 values -> In x3 values ->
  cell_eqb x1 x2 = false -> cell_eqb x1 x3 = false -> cell_eqb x2 x3 = false ->
  3 <= List.length (list_set values).
Proof.
  intros Ht I1 I2 I3 D12 D13 D23.
  assert (N : forall x, In x values -> isna x = false).
  { intros x Hx. specialize (Ht x Hx). now destruct x. }
  destruct (list_set_cover values x1 I1 (N x1 I1)) as [y1 [J1 E1]].
  destruct (list_set_cover values x2 I2 (N x2 I2)) as [y2 [J2 E2]].
  destruct (list_set_cover values x3 I3 (N x3 I3)) as [y3 [J3 E3]].
  apply (NoDup_incl_length (l := [y1; y2; y3])).
  - repeat constructor; cbn [In]; try tauto.
    + intros [H|[H|[]]]; subst.
      * rewrite cell_eqb_sym in E2.
        rewrite (cell_eqb_trans _ _ _ E1 E2) in D12. discriminate.
      * rewrite cell_eqb_sym in E3.
        rewrite (cell_eqb_trans _ _ _ E1 E3) in D13. discriminate.
    + intros [H|[]]; subst. rewrite cell_eqb_sym in E3.
      rewrite (cell_eqb_trans _ _ _ E2 E3) in D23. discriminate.
  - intros y [H|[H|[H|[]]]]; subst; assumption.
Qed.

Lemma make_plot_figure (source : ColumnDataSource) (initial_year : Z) (values : list cell) :
  dict_get Region (source_columns source) = Some values ->
  (forall x, In x values -> is_text x = true) ->
  3 <= List.length (list_set values) ->
  exists fig palette,
    make_plot Category20 list_set source initial_year = inr fig /\
    fig_title fig = ("Life Expectancy vs Fertility in " ++ format_int initial_year)%string /\
    fig_scatter fig =
      mkScatter Fertility lifeExp 10 source (mkColorMapper Region palette (list_set values))
                "black" 0.6 /\
    List.length palette = Nat.min (List.length (list_set values)) 20.
Proof.
  intros Hd Ht L.
  assert (T : forallb is_text (list_set values) = true).
  { apply forallb_forall. intros x Hx. apply Ht. now apply list_set_sub. }
  unfold make_plot. rewrite Hd. cbv zeta.
  destruct (Nat.leb (List.length (list_set values)) 20) eqn:E.
  - apply Nat.leb_le in E.
    destruct (Category20_sizes (List.length (list_set values)) (conj L E)) as [p [Hp Lp]].
    rewrite Hp, T. eexists. exists p. split; [reflexivity|]. cbn. repeat split. lia.
  - apply Nat.leb_gt in E.
    destruct (Category20_sizes 20 ltac:(lia)) as [p [Hp Lp]].
    rewrite Hp, T. eexists. exists p. split; [reflexivity|]. cbn. repeat split. lia.
Qed.

(** [make_plot] succeeds on a source whose Regions are text, three
    different ones or more: the figure's title is the one [update_plot]
    sets for the same year, its factors are the distinct Regions, and its
    palette has as many colours as there are Regions, 20 at most. *)
Theorem make_plot_with_regions (source : ColumnDataSource) (initial_year : Z)
    (values : list cell) (x1 x2 x3 : cell) :
  dict_get Region (source_columns source) = Some values ->
  (forall x, In x values -> is_text x = true) ->
  In x1 values -> In x2 values -> In x3 values ->
  cell_eqb x1 x2 = false -> cell_eqb x1 x3 = false -> cell_eqb x2 x3 = false ->
  exists fig,
    make_plot Category20 list_set source initial_year = inr fig /\
    (forall dataset old_source old_title,
        fig_title fig =
        title_text (update_plot (mkSession initial_year dataset old_source old_title))) /\
    cm_factors (scatter_color (fig_scatter fig)) = list_set values /\
    3 <= List.length (list_set values) /\
    List.length (cm_palette (scatter_color (fig_scatter fig))) =
    Nat.min (List.length (list_set values)) 20.
Proof.
  intros Hd Ht I1 I2 I3 D12 D13 D23.
  pose proof (list_set_three values x1 x2 x3 Ht I1 I2 I3 D12 D13 D23) as L.
  destruct (make_plot_figure source initial_year values Hd Ht L)
    as [fig [palette [Hm [Htitle [Hs Hl]]]]].
  exists fig. split; [exact Hm|]. split; [|split; [|split]].
  - intros dataset old_source old_title. rewrite Htitle. reflexivity.
  - rewrite Hs. reflexivity.
  - exact L.
  - rewrite Hs. exact Hl.
Qed.

Variable parse_csv : string -> DataLoadError + Table.

Lemma ColumnDataSource_all_columns (present : list column) (df : DataFrame) :
  (forall c, In c present) ->
  ColumnDataSource_frame (mkFrame present df) = ColumnDataSource_of df.
Proof.
  intros H. unfold ColumnDataSource_frame, ColumnDataSource_of.
  cbn [frame_rows frame_columns]. f_equal.
  unfold to_dict_list, columns. cbn [map filter fst].
  now rewrite !(proj2 (has_column_In _ present) (H _)).
Qed.

Lemma initial_view (present : list column) (rows : list row) (fs : filesystem)
    (text : string) :
  fs "gapminder.csv" = Some text -> parse_csv text = inr (mkTable present rows) ->
  (forall c, In c present) ->
  main Category20 list_set parse_csv fs =
  match make_plot Category20 list_set
          (ColumnDataSource_of (filter (year_is 1964) (prepare rows))) 1964 with
  | inl e => inl (inr e)
  | inr plot => inr (plot, setup_slider 1964)
  end.
Proof.
  intros Hf Hp Hall. unfold main.
  rewrite (proj2 (load_data_returns parse_csv fs "gapminder.csv"
                    (mkFrame present (prepare rows))))
    by (exists text, (mkTable present rows); auto).
  cbv zeta. cbn [frame_columns frame_rows].
  rewrite (proj2 (has_column_In Year present) (Hall Year)). cbn [negb].
  rewrite getitem_mask_filter, (ColumnDataSource_all_columns present _ Hall).
  reflexivity.
Qed.

(** [main] cannot start on a file without data for 1964: when the file
    has the seven columns and no row of it has the Year 1964 together with
    a Fertility and a lifeExp, the first source is empty and [make_plot]
    raises [KeyError] for 0. *)
Theorem main_without_initial_year (fs : filesystem) (text : string)
    (present : list column) (rows : list row) :
  fs "gapminder.csv" = Some text ->
  parse_csv text = inr (mkTable present rows) ->
  (forall c, In c present) ->
  (forall r, In r rows -> cell_eqb (get Year r) (Num (inject_Z 1964)) = true ->
             isna (get Fertility r) = true \/ isna (get lifeExp r) = true) ->
  main Category20 list_set parse_csv fs = inl (inr (KeyError_int 0)).
Proof.
  intros Hf Hp Hall Hr. rewrite (initial_view present rows fs text Hf Hp Hall).
  assert (V : filter (year_is 1964) (prepare rows) = []).
  { apply filter_none. intros [i r'] HI.
    destruct (in_prepare rows i r' HI) as [r [v [H ->]]].
    apply in_retained in H. destruct H as [H [HF HL]].
    unfold year_is. cbn [snd].
    change (get Year (cleaned_row v r)) with (get Year r).
    destruct (cell_eqb (get Year r) (Num (inject_Z 1964))) eqn:E; [|reflexivity].
    destruct (Hr r (nth_error_In _ _ H) E); congruence. }
  rewrite V. unfold make_plot, ColumnDataSource_of. cbn [source_columns].
  rewrite dict_get_to_dict_list. cbn [map]. cbv zeta.
  assert (S : list_set [] = []).
  { destruct (list_set []) as [|x l] eqn:E; [reflexivity|].
    exfalso. apply (list_set_sub [] x). rewrite E. now left. }
  rewrite S. cbn [List.length Nat.leb].
  rewrite (Category20_small 0) by lia. reflexivity.
Qed.

(** [main] starts on a file with the seven columns whose complete rows of
    1964 have text for Region, in three different Regions or more: it
    returns the plot of the prepared rows of 1964, titled for 1964, and a
    slider from 1964 to 2013 that stands at 1964. *)
Theorem main_starts (fs : filesystem) (text : string)
    (present : list column) (rows : list row)
    (i1 i2 i3 : nat) (r1 r2 r3 : row) :
  fs "gapminder.csv" = Some text ->
  parse_csv text = inr (mkTable present rows) ->
  (forall c, In c present) ->
  (forall r, In r rows -> cell_eqb (get Year r) (Num (inject_Z 1964)) = true ->
             isna (get Fertility r) = false -> isna (get lifeExp r) = false ->
             is_text (get Region r) = true) ->
  nth_error rows i1 = Some r1 -> nth_error rows i2 = Some r2 -> nth_error rows i3 = Some r3 ->
  (forall r, r = r1 \/ r = r2 \/ r = r3 ->
             cell_eqb (get Year r) (Num (inject_Z 1964)) = true /\
             isna (get Fertility r) = false /\ isna (get lifeExp r) = false) ->
  cell_eqb (get Region r1) (get Region r2) = false ->
  cell_eqb (get Region r1) (get Region r3) = false ->
  cell_eqb (get Region r2) (get Region r3) = false ->
  exists plot,
    main Category20 list_set parse_csv fs = inr (plot, setup_slider 1964) /\
    scatter_source (fig_scatter plot) =
      ColumnDataSource_of (filter (year_is 1964) (prepare rows)) /\
    fig_title plot = "Life Expectancy vs Fertility in 1964" /\
    (sl_start (setup_slider 1964) <= sl_value (setup_slider 1964) <=
     sl_end (setup_slider 1964))%Z.
Proof.
  intros Hf Hp Hpresent Htext H1 H2 H3 Hc D12 D13 D23.
  rewrite (initial_view present rows fs text Hf Hp Hpresent).
  set (view := filter (year_is 1964) (prepare rows)).
  assert (Hin : forall i r, nth_error rows i = Some r -> (r = r1 \/ r = r2 \/ r = r3) ->
                            In (get Region r) (map (fun ir => get Region (snd ir)) view)).
  { intros i r Hn Hr. destruct (Hc r Hr) as [Hy [HF HL]].
    assert (HI : In (i, r) (retained rows)) by (apply in_retained; auto).
    apply in_split in HI. destruct HI as [pre [post E]].
    pose proof (prepare_at rows pre post i r E) as A. cbv zeta in A.
    apply nth_error_In in A. apply in_map_iff.
    eexists. split; [|unfold view; apply filter_In; split; [exact A | exact Hy]].
    reflexivity. }
  assert (Hall : forall x, In x (map (fun ir => get Region (snd ir)) view) ->
                           is_text x = true).
  { intros x Hx. apply in_map_iff in Hx. destruct Hx as [[i r'] [<- Hv]].
    unfold view in Hv. apply filter_In in Hv. destruct Hv as [HI Hy].
    destruct (in_prepare rows i r' HI) as [r [v [Hr ->]]].
    apply in_retained in Hr. destruct Hr as [Hr [HF HL]].
    apply (Htext r (nth_error_In _ _ Hr) Hy HF HL). }
  assert (L : 3 <= List.length (list_set (map (fun ir => get Region (snd ir)) view))).
  { apply (list_set_three _ (get Region r1) (get Region r2) (get Region r3));
      try assumption; eapply Hin; eauto. }
  destruct (make_plot_figure (ColumnDataSource_of view) 1964
              (map (fun ir => get Region (snd ir)) view))
    as [fig [palette [Hm [Htitle [Hs _]]]]];
    [unfold ColumnDataSource_of; cbn [source_columns]; apply dict_get_to_dict_list
    | exact Hall | exact L |].
  exists fig. rewrite Hm. split; [reflexivity|]. split; [|split].
  - rewrite Hs. reflexivity.
  - rewrite Htitle. reflexivity.
  - cbn. lia.
Qed.

End PlotProperties.

(** The sample palette table and the listing by first occurrence have the
    properties assumed of [Category20] and of [list(set(...))]. *)
Lemma sample_Category20_small (n : nat) : n < 3 -> sample_Category20 n = None.
Proof.
  intros H. unfold sample_Category20.
  destruct (Nat.leb 3 n) eqn:E; [apply Nat.leb_le in E; lia | reflexivity].
Qed.

Lemma sample_Category20_sizes (n : nat) :
  3 <= n <= 20 -> exists p, sample_Category20 n = Some p /\ List.length p = n.
Proof.
  intros [H1 H2]. unfold sample_Category20.
  rewrite (proj2 (Nat.leb_le 3 n) H1), (proj2 (Nat.leb_le n 20) H2).
  eexists. split; [reflexivity|].
  rewrite length_firstn. cbn [Category20_20 List.length]. lia.
Qed.

Lemma first_occurrences_sub (l : list cell) (x : cell) :
  In x (first_occurrences l) -> In x l.
Proof.
  induction l as [|a l IH]; cbn [first_occurrences]; [auto|].
  intros [H|H]; [now left|]. right. apply IH. now apply filter_In in H.
Qed.

Lemma ForallOrdPairs_filter {A : Type} (R : A -> A -> Prop) (p : A -> bool) (l : list A) :
  ForallOrdPairs R l -> ForallOrdPairs R (filter p l).
Proof.
  induction 1 as [|a l Ha Hl IH]; cbn [filter]; [constructor|].
  destruct (p a); [|exact IH]. constructor; [|exact IH].
  apply Forall_forall. intros y Hy. apply filter_In in Hy.
  rewrite Forall_forall in Ha. now apply Ha.
Qed.

Lemma first_occurrences_distinct (l : list cell) :
  ForallOrdPairs (fun x y => cell_eqb x y = false) (first_occurrences l).
Proof.
  induction l as [|a l IH]; cbn [first_occurrences]; constructor.
  - apply Forall_forall. intros y Hy. apply filter_In in Hy.
    destruct Hy as [_ Hy]. now destruct (cell_eqb a y).
  - now apply ForallOrdPairs_filter.
Qed.

Lemma first_occurrences_cover (l : list cell) (x : cell) :
  In x l -> isna x = false ->
  exists y, In y (first_occurrences l) /\ cell_eqb x y = true.
Proof.
  induction l as [|a l IH]; intros HI Hx; [contradiction|].
  cbn [first_occurrences]. destruct HI as [->|HI].
  - exists x. split; [now left | now apply cell_eqb_refl].
  - destruct (IH HI Hx) as [y [Hy Exy]].
    destruct (cell_eqb a y) eqn:E.
    + exists a. split; [now left|]. rewrite cell_eqb_sym in E.
      exact (cell_eqb_trans x y a Exy E).
    + exists y. split; [|exact Exy]. right. apply filter_In. split; [exact Hy|].
      now rewrite E.
Qed.

Lemma make_plot_few_regions_witness :
  dict_get Region (source_columns (ColumnDataSource_of (prepare two_regions))) =
    Some [Str "Asia"; Str "Europe"; Str "Asia"] /\
  exists n, n < 3 /\
            make_plot sample_Category20 first_occurrences
                      (ColumnDataSource_of (prepare two_regions)) 1964 =
            inl (KeyError_int n).
Proof.
  split; [reflexivity|].
  apply (make_plot_few_regions sample_Category20 first_occurrences
           first_occurrences_sub first_occurrences_distinct sample_Category20_small
           (ColumnDataSource_of (prepare two_regions)) 1964
           [Str "Asia"; Str "Europe"; Str "Asia"] (Str "Asia") (Str "Europe")).
  - reflexivity.
  - intros x [H|[H|[H|[]]]]; subst; cbn; auto.
Defined.

Lemma make_plot_with_regions_witness :
  dict_get Region (source_columns (ColumnDataSource_of (prepare three_regions))) =
    Some [Str "Asia"; Str "Europe"; Str "Asia"; Str "Africa"] /\
  exists fig,
    make_plot sample_Category20 first_occurrences
              (ColumnDataSource_of (prepare three_regions)) 1964 = inr fig /\
    fig_title fig = "Life Expectancy vs Fertility in 1964" /\
    cm_factors (scatter_color (fig_scatter fig)) = [Str "Asia"; Str "Europe"; Str "Africa"] /\
    List.length (cm_palette (scatter_color (fig_scatter fig))) = 3.
Proof.
  split; [reflexivity|].
  destruct (make_plot_with_regions sample_Category20 first_occurrences
              first_occurrences_sub first_occurrences_cover sample_Category20_sizes
              (ColumnDataSource_of (prepare three_regions)) 1964
              [Str "Asia"; Str "Europe"; Str "Asia"; Str "Africa"]
              (Str "Asia") (Str "Europe") (Str "Africa"))
    as [fig [H1 [H2 [H3 [_ H4]]]]]; try reflexivity; cbn [In]; auto.
  { intros x [H|[H|[H|[H|[]]]]]; subst x; reflexivity. }
  exists fig. split; [exact H1|]. split; [|split].
  - rewrite (H2 [] [] ""). reflexivity.
  - rewrite H3. reflexivity.
  - rewrite H4. reflexivity.
Defined.

Lemma main_without_initial_year_witness :
  let fs := fun p : string => if String.eqb p "gapminder.csv" then Some "csv" else None in
  let parse := fun _ : string =>
                 inr (mkTable columns (firstn 1 scenario1 ++ skipn 1 scenario2))
                 : DataLoadError + Table in
  fs "gapminder.csv" = Some "csv" /\
  main sample_Category20 first_occurrences parse fs = inl (inr (KeyError_int 0)).
Proof.
  intros fs parse. split; [reflexivity|].
  apply (main_without_initial_year sample_Category20 first_occurrences
           first_occurrences_sub sample_Category20_small parse fs "csv"
           columns (firstn 1 scenario1 ++ skipn 1 scenario2)).
  - reflexivity.
  - reflexivity.
  - intros c. destruct c; cbn; tauto.
  - intros r [H|[H|[H|[]]]] Hy; subst r.
    + right. reflexivity.
    + vm_compute in Hy. discriminate Hy.
    + vm_compute in Hy. discriminate Hy.
Defined.

Lemma main_starts_witness :
  let fs := fun p : string => if String.eqb p "gapminder.csv" then Some "csv" else None in
  let parse := fun _ : string => inr (mkTable columns three_regions)
                                 : DataLoadError + Table in
  fs "gapminder.csv" = Some "csv" /\
  exists plot,
    main sample_Category20 first_occurrences parse fs = inr (plot, setup_slider 1964) /\
    scatter_source (fig_scatter plot) =
      ColumnDataSource_of (filter (year_is 1964) (prepare three_regions)) /\
    fig_title plot = "Life Expectancy vs Fertility in 1964" /\
    (sl_start (setup_slider 1964) <= sl_value (setup_slider 1964) <=
     sl_end (setup_slider 1964))%Z.
Proof.
  intros fs parse. split; [reflexivity|].
  apply (main_starts sample_Category20 first_occurrences
           first_occurrences_sub first_occurrences_cover sample_Category20_sizes
           parse fs "csv" columns three_regions
           0 1 3
           (with_region "Asia" (observation "A" 1964 (Num 5) (Num 50) (Num 100) (Str "a0")))
           (with_region "Europe" (observation "B" 1964 (Num 4) (Num 61) (Num 90) (Str "b0")))
           (with_region "Africa" (observation "D" 1964 (Num 6) (Num 45) (Num 30) (Str "d0"))));
    try reflexivity.
  - intros c. destruct c; cbn; tauto.
  - intros r [H|[H|[H|[H|[]]]]] _ _ _; subst r; reflexivity.
  - intros r [H|[H|H]]; subst r; repeat split.
Defined.

(** Files that lack the Year or the Region column: [main] ends at
    [data['Year']], or in [make_plot] at [source.data['Region']]. *)
Example main_missing_column :
  let fs := fun _ : string => Some "csv" in
  main sample_Category20 first_occurrences
       (fun _ => inr (without [Year] three_regions)) fs =
    inl (inr (KeyError_column Year)) /\
  main sample_Category20 first_occurrences
       (fun _ => inr (without [Region] three_regions)) fs =
    inl (inr (KeyError_column Region)) /\
  main sample_Category20 first_occurrences
       (fun _ => inr (without [ID] three_regions)) fs =
    inl (inl (KeyError [ID])).
Proof. repeat split. Qed.
